(** * snapshotter: incremental snapshot backups driven by rsync

    A shallow embedding of [snapshotter/snapshotter.py] and the properties
    of its destination parser, its command construction, its process runner
    and its command-line entry point.

    Python strings are [string]; [None]-able values are [option]; exit
    statuses and errno values are [Z].  Exceptions are an inductive type and
    functions that can raise return a [result].  Printing and launching
    external processes are recorded in a chronological trace of events that
    is threaded through a small state-and-exception monad. *)

From Stdlib Require Import String Ascii List ZArith Bool Lia DecimalString.
Import ListNotations.
Open Scope string_scope.
Open Scope Z_scope.

Set Implicit Arguments.

(** ** Python string primitives *)

Module Py.

(** [c in s] for a one-character needle. *)
Fixpoint contains (c : ascii) (s : string) : bool :=
  match s with
  | EmptyString => false
  | String a s' => if Ascii.eqb a c then true else contains c s'
  end.

(** [s.split(c)] for a one-character separator: never the empty list. *)
Fixpoint split (c : ascii) (s : string) : list string :=
  match s with
  | EmptyString => [EmptyString]
  | String a s' =>
      if Ascii.eqb a c then EmptyString :: split c s'
      else match split c s' with
           | h :: t => String a h :: t
           | [] => [String a EmptyString]
           end
  end.

(** [s.split(c, 1)]: at most one cut, at the first occurrence of [c]. *)
Fixpoint split1 (c : ascii) (s : string) : list string :=
  match s with
  | EmptyString => [EmptyString]
  | String a s' =>
      if Ascii.eqb a c then [EmptyString; s']
      else match split1 c s' with
           | h :: t => String a h :: t
           | [] => [String a EmptyString]
           end
  end.

(** [l[0]] and [l[-1]]; both raise on an empty list, which [split] never
    returns, so the default is never used on its results. *)
Definition first (l : list string) : string := hd EmptyString l.
Definition last (l : list string) : string := List.last l EmptyString.

(** The characters [str.split()] treats as separators for a byte string. *)
Definition isspace (a : ascii) : bool :=
  let n := nat_of_ascii a in
  (Nat.eqb n 32 || (Nat.leb 9 n && Nat.leb n 13))%bool.

(** [s.split()]: cut at runs of whitespace, no empty pieces. *)
Fixpoint split_ws (s : string) : list string :=
  match s with
  | EmptyString => []
  | String a s' =>
      if isspace a then split_ws s'
      else match s' with
           | EmptyString => [String a EmptyString]
           | String b _ =>
               if isspace b then String a EmptyString :: split_ws s'
               else match split_ws s' with
                    | h :: t => String a h :: t
                    | [] => [String a EmptyString]
                    end
           end
  end.

(** [s.endswith(suffix)]. *)
Fixpoint endswith (s suffix : string) : bool :=
  if String.eqb s suffix then true
  else match s with
       | EmptyString => false
       | String _ s' => endswith s' suffix
       end.

(** [s.startswith(p)]. *)
Definition startswith (s p : string) : bool := String.prefix p s.

(** [sep.join(l)]. *)
Definition join (sep : string) (l : list string) : string :=
  String.concat sep l.

(** [str(n)] for an integer. *)
Definition str (n : Z) : string := NilZero.string_of_int (Z.to_int n).

(** Two-digit and four-digit zero-padded fields of [strftime]. *)
Definition pad (width : nat) (n : nat) : string :=
  let d := NilZero.string_of_uint (Nat.to_uint n) in
  let fix zeros k := match k with O => EmptyString | S k' => String "0" (zeros k') end in
  zeros (width - String.length d)%nat ++ d.

End Py.

(** The double-quote character, as a one-character string. *)
Definition dquote : string := String (ascii_of_nat 34) EmptyString.

(** The path separator [os.sep] of the platform the script targets. *)
Definition os_sep : string := "/".

(** ** Exceptions and results *)

(** The argument of [sys.exit]: an integer status, or a message that is
    printed before exiting with status 1. *)
Inductive exit_arg : Type :=
| ExitStatus (status : Z)
| ExitMessage (message : string).

Inductive exn : Type :=
| SubprocessCalledProcessError (returncode : Z) (output : string)
| OSError (errno : Z) (strerror : string)
| IndexError
| ValueError
| CalledProcessError (command output : string) (exit_value : Z)
| NoSuchCommandError (command message : string)
| CommandLineArgumentsError (message : string)
| SystemExit (arg : exit_arg).

Inductive result (A : Type) : Type :=
| Ok (a : A)
| Raise (e : exn).
Arguments Ok {A} a.
Arguments Raise {A} e.

(** [err.message]: the single argument the exception class hands to
    [Exception.__init__]. *)
Definition message_of (e : exn) : string :=
  match e with
  | CalledProcessError _ output exit_value => output ++ " " ++ Py.str exit_value
  | NoSuchCommandError _ message => message
  | CommandLineArgumentsError message => message
  | _ => EmptyString
  end.

(** ** The destination parser *)

(** [_is_remote]: a colon in the part before the first slash. *)
Definition _is_remote (src_or_dest : string) : bool :=
  Py.contains ":" (Py.first (Py.split "/" src_or_dest)).

Section Parser.

(** [os.path.expanduser] and [os.path.abspath] depend on the account and
    on the working directory of the process. *)
Variable expanduser : string -> string.
Variable abspath : string -> string.

(** [_parse_rsync_arg]: the (user, host, path) triple.  The two-name
    unpacking of [arg.split(':', 1)] raises [ValueError] when the split
    has a single piece. *)
Definition _parse_rsync_arg (arg : string)
  : result (option string * option string * string) :=
  if _is_remote arg then
    match Py.split1 ":" arg with
    | [before_first_colon; after_first_colon] =>
        let user :=
          if Py.contains "@" before_first_colon
          then Some (Py.first (Py.split "@" before_first_colon))
          else None in
        let host := Py.last (Py.split "@" before_first_colon) in
        let path := after_first_colon in
        Ok (user, Some host, path)
    | _ => Raise ValueError
    end
  else
    Ok (None, None, abspath (expanduser arg)).

End Parser.

(** ** The world the script runs in *)

(** What launching a process gives back: the process ran and exited with a
    status after writing [output] (stdout and stderr merged by
    [stderr=subprocess.STDOUT]), or the operating system refused to start it
    and [OSError(errno, strerror)] was raised.  The words of an argument
    vector are taken to be free of NUL bytes: a word with a NUL byte never
    reaches the operating system ([subprocess] raises [TypeError] for it), a
    case these two outcomes leave out and that the properties below exclude
    where they depend on it. *)
Inductive proc_outcome : Type :=
| Exited (output : string) (returncode : Z)
| NotStarted (errno : Z) (strerror : string).

(** What the script does to the outside: text it writes on stdout, and
    processes it launches (with what became of them).  What goes to stderr
    (the message of [sys.exit], the complaint of [parser.error]) is not an
    event. *)
Inductive event : Type :=
| Echo (line : string)
| Exec (argv : list string) (outcome : proc_outcome).

(** The value of [datetime.datetime.now()]. *)
Record datetime : Type := {
  year : nat; month : nat; day : nat;
  hour : nat; minute : nat; second : nat
}.

Record Env : Type := {
  (** the clock read by [_datetime] *)
  clock : datetime;
  (** [os.path.expanduser] *)
  expanduser : string -> string;
  (** [os.path.abspath] *)
  abspath : string -> string;
  (** [os.path.isfile] *)
  isfile : string -> bool;
  (** the fate of a process launched with the given argument vector, after
      the events that came before it *)
  popen : list event -> list string -> proc_outcome;
  (** the program name [optparse] puts in the usage message *)
  prog : string;
  (** [parser.format_help()]: the help text, laid out for the width of the
      terminal *)
  help_text : string
}.

(** ** The monad of the script: a trace of events, and exceptions *)

Definition M (A : Type) : Type := list event -> list event * result A.

Definition ret {A : Type} (a : A) : M A := fun tr => (tr, Ok a).

Definition raise {A : Type} (e : exn) : M A := fun tr => (tr, Raise e).

Definition bind {A B : Type} (m : M A) (k : A -> M B) : M B :=
  fun tr =>
    match m tr with
    | (tr', Ok a) => k a tr'
    | (tr', Raise e) => (tr', Raise e)
    end.

(** [try: m except ...: handler]; the handler re-raises what it does not
    catch. *)
Definition try_except {A : Type} (m : M A) (handler : exn -> M A) : M A :=
  fun tr =>
    match m tr with
    | (tr', Ok a) => (tr', Ok a)
    | (tr', Raise e) => handler e tr'
    end.

Definition lift {A : Type} (r : result A) : M A := fun tr => (tr, r).

Definition print (line : string) : M unit := fun tr => ((tr ++ [Echo line])%list, Ok tt).

Declare Scope script_scope.
Delimit Scope script_scope with script.
Notation "x <- m ;; k" := (bind m (fun x => k))
  (at level 61, m at next level, right associativity) : script_scope.
Notation "m ;; k" := (bind m (fun _ => k))
  (at level 61, right associativity) : script_scope.
Open Scope script_scope.

(** The argument vectors of the processes launched in a trace, in order. *)
Fixpoint launched (tr : list event) : list (list string) :=
  match tr with
  | [] => []
  | Echo _ :: tr' => launched tr'
  | Exec argv _ :: tr' => argv :: launched tr'
  end.

Section Script.

Variable env : Env.

(** [subprocess.check_output(argv, stderr=subprocess.STDOUT)]: an empty
    argument vector has no [args[0]] to execute; a process that exits
    non-zero raises [subprocess.CalledProcessError]. *)
Definition check_output (argv : list string) : M string :=
  fun tr =>
    match argv with
    | [] => (tr, Raise IndexError)
    | _ :: _ =>
        let o := popen env tr argv in
        ((tr ++ [Exec argv o])%list,
         match o with
         | Exited output returncode =>
             if returncode =? 0 then Ok output
             else Raise (SubprocessCalledProcessError returncode output)
         | NotStarted errno strerror => Raise (OSError errno strerror)
         end)
    end.

(** [_run] *)
Definition _run (command : string) : M string :=
  try_except (check_output (Py.split_ws command))
    (fun err =>
       match err with
       | SubprocessCalledProcessError returncode output =>
           raise (CalledProcessError command output returncode)
       | OSError errno strerror =>
           if errno =? 2 then raise (NoSuchCommandError command strerror)
           else raise err
       | _ => raise err
       end).

(** [_datetime]: [strftime("%Y-%m-%dT%H_%M_%S")] of the clock. *)
Definition _datetime : string :=
  let now := clock env in
  Py.pad 4 (year now) ++ "-" ++ Py.pad 2 (month now) ++ "-" ++ Py.pad 2 (day now)
  ++ "T" ++ Py.pad 2 (hour now) ++ "_" ++ Py.pad 2 (minute now)
  ++ "_" ++ Py.pad 2 (second now).

(** The options that [snapshot] always passes to rsync. *)
Definition fixed_options : list string :=
  [ "--archive";
    "--partial";
    "--partial-dir=partially_transferred_files";
    "--one-file-system";
    "--delete";
    "--delete-excluded";
    "--itemize-changes";
    "--link-dest=../latest.snapshot";
    "--human-readable";
    "--quiet";
    "--compress";
    "--fuzzy" ].

(** The local [rsync_options] of [snapshot] once all the appends are done. *)
Definition rsync_options (debug : bool) (exclude : option (list string))
  : list string :=
  (fixed_options
   ++ (if isfile env (expanduser env "~/.snapshotter/excludes")
       then ["--exclude-from=$HOME/.snapshotter/excludes"] else [])
   ++ (if debug then ["--dry-run"] else [])
   ++ match exclude with
      | Some patterns => map (fun pattern => ("--exclude '" ++ pattern ++ "'")%string) patterns
      | None => []
      end)%list.

(** The local [rsync_cmd]. *)
Definition rsync_cmd (rsync_options : list string) (source : string)
    (user host : option string) (snapshots_root : string) : string :=
  let rsync_cmd := "rsync " ++ Py.join " " rsync_options ++ " " ++ source ++ " " in
  let rsync_cmd :=
    match host with
    | Some host =>
        let rsync_cmd :=
          match user with
          | Some user => rsync_cmd ++ user ++ "@"
          | None => rsync_cmd
          end in
        rsync_cmd ++ host ++ ":"
    | None => rsync_cmd
    end in
  rsync_cmd ++ snapshots_root ++ "/incomplete.snapshot".

(** The local [mv_cmd]. *)
Definition mv_cmd (user host : option string) (snapshots_root date : string)
  : string :=
  let mv_cmd := "" in
  let mv_cmd :=
    match host with
    | Some host =>
        let mv_cmd := mv_cmd ++ "ssh " in
        let mv_cmd :=
          match user with
          | Some user => mv_cmd ++ user ++ "@"
          | None => mv_cmd
          end in
        mv_cmd ++ host ++ " " ++ dquote
    | None => mv_cmd
    end in
  let mv_cmd :=
    mv_cmd ++ "mv " ++ snapshots_root ++ "/incomplete.snapshot "
           ++ snapshots_root ++ "/" ++ date ++ ".snapshot" in
  match host with
  | Some _ => mv_cmd ++ dquote
  | None => mv_cmd
  end.

(** The local [rm_cmd]. *)
Definition rm_cmd (snapshots_root : string) : string :=
  "rm -f " ++ snapshots_root ++ "/latest.snapshot".

(** The local [ln_cmd]. *)
Definition ln_cmd (snapshots_root date : string) : string :=
  "ln -s " ++ date ++ ".snapshot " ++ snapshots_root ++ "/latest.snapshot".

(** The four command strings [snapshot] holds in its locals [rsync_cmd],
    [mv_cmd], [rm_cmd] and [ln_cmd] when it reaches its first [print]. *)
Record commands : Type := {
  the_rsync_cmd : string;
  the_mv_cmd : string;
  the_rm_cmd : string;
  the_ln_cmd : string
}.

(** [snapshot], up to the point where every command string is built.
    The [compress] argument is accepted and never looked at. *)
Definition build_commands {C : Type} (source dest : string) (debug : bool)
    (compress : C) (exclude : option (list string)) : result commands :=
  let source :=
    if negb (Py.endswith source os_sep) then source ++ os_sep else source in
  let date := _datetime in
  match _parse_rsync_arg (expanduser env) (abspath env) dest with
  | Raise e => Raise e
  | Ok (user, host, snapshots_root) =>
      let rsync_options := rsync_options debug exclude in
      Ok {| the_rsync_cmd := rsync_cmd rsync_options source user host snapshots_root;
            the_mv_cmd := mv_cmd user host snapshots_root date;
            the_rm_cmd := rm_cmd snapshots_root;
            the_ln_cmd := ln_cmd snapshots_root date |}
  end.

(** [snapshot], from its first [print] on. *)
Definition run_commands (debug : bool) (c : commands) : M unit :=
  print (the_rsync_cmd c) ;;
  _run (the_rsync_cmd c) ;;
  if negb debug then
    print (the_mv_cmd c) ;;
    _run (the_mv_cmd c) ;;
    print (the_rm_cmd c) ;;
    _run (the_rm_cmd c) ;;
    print (the_ln_cmd c) ;;
    _run (the_ln_cmd c) ;;
    ret tt
  else ret tt.

(** [snapshot(source, dest, debug=False, compress=True, exclude=None)] *)
Definition snapshot {C : Type} (source dest : string) (debug : bool)
    (compress : C) (exclude : option (list string)) : M unit :=
  c <- lift (build_commands source dest debug compress exclude) ;;
  run_commands debug c.

(** *** The command line *)

(** The attributes [optparse] fills in: [options.debug], [options.exclude]. *)
Record Values : Type := {
  debug_value : bool;
  exclude_value : option (list string)
}.

Inductive opt_action : Type :=
| ActHelp
| ActDebug
| ActExclude.

(** The long and short option strings of the parser [_parse_cli] builds,
    with the [--help] / [-h] pair that [OptionParser] adds by itself. *)
Definition long_opt : list (string * opt_action) :=
  [ ("--help", ActHelp); ("--debug", ActDebug);
    ("--dry-run", ActDebug); ("--exclude", ActExclude) ].

Definition short_opt (ch : ascii) : option opt_action :=
  if Ascii.eqb ch "h" then Some ActHelp
  else if Ascii.eqb ch "d" then Some ActDebug
  else if Ascii.eqb ch "n" then Some ActDebug
  else None.

(** [parser.error(...)]: usage and message on stderr, then exit status 2. *)
Definition optparse_error {A : Type} : M A := raise (SystemExit (ExitStatus 2)).

(** The help action: [parser.print_help()] writes the help text on stdout,
    then [parser.exit()] exits with status 0. *)
Definition optparse_help {A : Type} : M A :=
  print (help_text env) ;; raise (SystemExit (ExitStatus 0)).

(** [_match_abbrev]: an exact option string, or the only one it is a
    prefix of. *)
Definition match_long_opt (opt : string) : option opt_action :=
  match filter (fun entry => String.eqb (fst entry) opt) long_opt with
  | entry :: _ => Some (snd entry)
  | [] =>
      match filter (fun entry => Py.startswith (fst entry) opt) long_opt with
      | [entry] => Some (snd entry)
      | _ => None
      end
  end.

(** [store_true] on [dest='debug']. *)
Definition store_debug (values : Values) : Values :=
  {| debug_value := true; exclude_value := exclude_value values |}.

(** [append] on [dest='exclude']. *)
Definition append_exclude (value : string) (values : Values) : Values :=
  {| debug_value := debug_value values;
     exclude_value :=
       Some (match exclude_value values with
             | Some patterns => patterns
             | None => []
             end ++ [value])%list |}.

(** [_process_short_opts] on the characters after the dash. *)
Fixpoint process_short_opts (chars : string) (values : Values) : M Values :=
  match chars with
  | EmptyString => ret values
  | String ch chars' =>
      match short_opt ch with
      | None => optparse_error
      | Some ActHelp => optparse_help
      | Some ActDebug => process_short_opts chars' (store_debug values)
      | Some ActExclude => optparse_error
      end
  end.

(** [_process_args]: options and positional arguments may be mixed; [--]
    ends the options. *)
Fixpoint process_args (rargs : list string) (values : Values)
    (largs : list string) : M (Values * list string) :=
  match rargs with
  | [] => ret (values, largs)
  | arg :: rest =>
      if String.eqb arg "--" then ret (values, (largs ++ rest)%list)
      else if Py.startswith arg "--" then
        let '(opt, explicit_value) :=
          match Py.split1 "=" arg with
          | [opt; next_arg] => (opt, Some next_arg)
          | _ => (arg, None)
          end in
        match match_long_opt opt, explicit_value with
        | None, _ => optparse_error
        | Some ActHelp, None => optparse_help
        | Some ActDebug, None => process_args rest (store_debug values) largs
        | Some ActExclude, Some value =>
            process_args rest (append_exclude value values) largs
        | Some ActExclude, None =>
            match rest with
            | [] => optparse_error
            | value :: rest' =>
                process_args rest' (append_exclude value values) largs
            end
        | Some _, Some _ => optparse_error
        end
      else
        match arg with
        | String "-" (String ch chars) =>
            values' <- process_short_opts (String ch chars) values ;;
            process_args rest values' largs
        | _ => process_args rest values (largs ++ [arg])%list
        end
  end.

(** [parser.parse_args(args)] with the defaults [debug=False] and no
    [exclude]. *)
Definition parse_args (args : list string) : M (Values * list string) :=
  process_args args {| debug_value := false; exclude_value := None |} [].

(** [parser.get_usage()] *)
Definition get_usage : string :=
  "Usage: " ++ prog env ++ " [options] SRC DEST" ++ String (ascii_of_nat 10) "".

(** [_parse_cli] *)
Definition _parse_cli (args : list string)
  : M (string * string * bool * option (list string)) :=
  parsed <- parse_args args ;;
  let '(options, args) := parsed in
  match args with
  | [src; dest] => ret (src, dest, debug_value options, exclude_value options)
  | _ => raise (CommandLineArgumentsError get_usage)
  end.

(** [main], on the arguments [sys.argv[1:]].  The call is
    [snapshot(src, dest, debug, exclude)]: four positional arguments, so the
    fourth lands in [compress] and [exclude] keeps its default [None]. *)
Definition main (argv : list string) : M unit :=
  parsed <- try_except (_parse_cli argv)
              (fun err =>
                 match err with
                 | CommandLineArgumentsError _ =>
                     raise (SystemExit (ExitMessage (message_of err)))
                 | _ => raise err
                 end) ;;
  let '(src, dest, debug, exclude) := parsed in
  try_except (snapshot src dest debug exclude None)
    (fun err =>
       match err with
       | CalledProcessError _ _ _ | NoSuchCommandError _ _ =>
           raise (SystemExit (ExitMessage (message_of err)))
       | _ => raise err
       end).

End Script.

Arguments snapshot env {C} source dest debug compress exclude _.
Arguments build_commands env {C} source dest debug compress exclude.

(** ** Vocabulary of the properties *)

(** A process that ran and exited with status 0. *)
Definition succeeded (o : proc_outcome) : bool :=
  match o with
  | Exited _ returncode => returncode =? 0
  | NotStarted _ _ => false
  end.

(** What [_run] raises for a command whose process did not succeed. *)
Definition run_failure (command : string) (o : proc_outcome) : exn :=
  match o with
  | Exited output returncode => CalledProcessError command output returncode
  | NotStarted errno strerror =>
      if errno =? 2 then NoSuchCommandError command strerror
      else OSError errno strerror
  end.

(** What becomes of [command] when it is echoed and launched after the
    events [tr]. *)
Definition fate (env : Env) (tr : list event) (command : string) : proc_outcome :=
  popen env (tr ++ [Echo command])%list (Py.split_ws command).

(** The events once [command] has been echoed and launched after [tr]. *)
Definition after_run (env : Env) (tr : list event) (command : string)
  : list event :=
  (tr ++ [Echo command; Exec (Py.split_ws command) (fate env tr command)])%list.

(** [source] once [snapshot] has made sure it ends with the separator. *)
Definition with_trailing_sep (source : string) : string :=
  if Py.endswith source os_sep then source else source ++ os_sep.

(** The [[user@]host:] that stands before the path of a remote destination;
    nothing for a local one. *)
Definition remote_prefix (user host : option string) : string :=
  match host, user with
  | None, _ => ""
  | Some host, None => host ++ ":"
  | Some host, Some user => user ++ "@" ++ host ++ ":"
  end.

(** The [[user@]host] a remote shell is given. *)
Definition ssh_login (user : option string) (host : string) : string :=
  match user with
  | None => host
  | Some user => user ++ "@" ++ host
  end.

(** [head] cut at its last [@]: [user] before it, [host] after it. *)
Definition cut_at_last_at (head user host : string) : Prop :=
  head = user ++ "@" ++ host /\ Py.contains "@" host = false.

(** ** A concrete world for running the model *)

Module Sample.

(** A home of [/home/alice]: [~] and [~/...] are expanded, other arguments
    are left alone. *)
Definition expand_home (path : string) : string :=
  match path with
  | String "~" EmptyString => "/home/alice"
  | String "~" (String "/" rest) => "/home/alice/" ++ rest
  | _ => path
  end.

(** A working directory of [/home/alice/work]. *)
Definition from_cwd (path : string) : string :=
  if Py.startswith path "/" then path else "/home/alice/work/" ++ path.

Definition now : datetime :=
  {| year := 2026; month := 11; day := 3; hour := 9; minute := 5; second := 0 |}.

(** Every process runs and exits with status 0, printing nothing. *)
Definition all_succeed (_ : list event) (_ : list string) : proc_outcome :=
  Exited "" 0.

(** The process whose argument vector starts with [name] exits with
    [status] after printing [output]; every other one succeeds. *)
Definition fails (name output : string) (status : Z)
    (_ : list event) (argv : list string) : proc_outcome :=
  if String.eqb (Py.first argv) name then Exited output status else Exited "" 0.

(** The executable [name] is not installed. *)
Definition missing (name : string)
    (_ : list event) (argv : list string) : proc_outcome :=
  if String.eqb (Py.first argv) name
  then NotStarted 2 "No such file or directory" else Exited "" 0.

(** The help text on a terminal of 80 columns. *)
Definition help : string :=
  "Usage: snapshotter.py [options] SRC DEST

Options:
  -h, --help            show this help message and exit
  -d, --debug, -n, --dry-run
                        Perform a trial-run with no changes made (pass the
                        --dry-run option to rsync)
  --exclude=PATTERN     Exclude files matching PATTERN, e.g. --exclude '.git/*'
                        (see the --exclude option in `man rsync`)
".

Definition env (excludes_file : bool)
    (popen : list event -> list string -> proc_outcome) : Env :=
  {| clock := now;
     expanduser := expand_home;
     abspath := from_cwd;
     isfile := fun path =>
       (excludes_file && String.eqb path "/home/alice/.snapshotter/excludes")%bool;
     popen := popen;
     prog := "snapshotter.py";
     help_text := help |}.

End Sample.


(** ** Vocabulary of the further properties *)

Set Warnings "-abstract-large-number".

(** Some character of [s] is one [str.split()] cuts at. *)
Fixpoint has_space (s : string) : bool :=
  match s with
  | EmptyString => false
  | String a s' => (Py.isspace a || has_space s')%bool
  end.

(** Every character of [s] is one [str.split()] cuts at. *)
Fixpoint blank (s : string) : bool :=
  match s with
  | EmptyString => true
  | String a s' => (Py.isspace a && blank s')%bool
  end.

(** A user or host name with none of the separators of a destination. *)
Definition plain (s : string) : bool :=
  negb (Py.contains "@" s || Py.contains ":" s || Py.contains "/" s).

(** A command-line argument that does not start with a dash. *)
Definition positional (arg : string) : bool := negb (Py.startswith arg "-").

(** The command-line arguments [--exclude p] for each pattern, in order. *)
Definition exclude_args (patterns : list string) : list string :=
  flat_map (fun pattern => ["--exclude"; pattern]) patterns.

(** The four spellings of the trial-run flag. *)
Definition debug_flags : list string := ["-d"; "--debug"; "-n"; "--dry-run"].

Definition isdigit (a : ascii) : bool :=
  let n := nat_of_ascii a in (Nat.leb 48 n && Nat.leb n 57)%bool.

(** [s] is exactly [n] decimal digits. *)
Fixpoint digits (n : nat) (s : string) : bool :=
  match n, s with
  | O, EmptyString => true
  | S n', String a s' => (isdigit a && digits n' s')%bool
  | _, _ => false
  end.

(** A date and time that [datetime.now()] can return and that
    [strftime] accepts. *)
Definition valid_clock (d : datetime) : bool :=
  ((1900 <=? year d) && (year d <=? 9999) && (1 <=? month d) && (month d <=? 12)
   && (1 <=? day d) && (day d <=? 31) && (hour d <=? 23) && (minute d <=? 59)
   && (second d <=? 59))%nat%bool.

(** A trace made of echo-then-launch pairs only: every process launched has
    the words of the line echoed just before it. *)
Fixpoint well_echoed (tr : list event) : bool :=
  match tr with
  | [] => true
  | Echo line :: Exec argv _ :: tr' =>
      if list_eq_dec string_dec argv (Py.split_ws line) then well_echoed tr'
      else false
  | _ => false
  end.

(** A string with no NUL byte in it. *)
Definition nul_free (s : string) : bool := negb (Py.contains Ascii.zero s).

(** The number a string of decimal digits writes. *)
Fixpoint decimal_value_from (acc : nat) (s : string) : nat :=
  match s with
  | EmptyString => acc
  | String a s' => decimal_value_from (10 * acc + (nat_of_ascii a - 48)) s'
  end.

Definition decimal_value (s : string) : nat := decimal_value_from 0 s.

(** * Facts about the string primitives *)

Unset Implicit Arguments.

Section StringFacts.

Lemma append_nil_r (s : string) : s ++ "" = s.
Proof. induction s as [|a s IH]; simpl; [reflexivity | now rewrite IH]. Qed.

Lemma append_assoc (s t u : string) : (s ++ t) ++ u = s ++ t ++ u.
Proof. induction s as [|a s IH]; simpl; [reflexivity | now rewrite IH]. Qed.

Lemma contains_app (c : ascii) (s t : string) :
  Py.contains c (s ++ t) = (Py.contains c s || Py.contains c t)%bool.
Proof.
  induction s as [|a s IH]; simpl; [reflexivity |].
  destruct (Ascii.eqb a c); [reflexivity | exact IH].
Qed.

(** A string that holds [c] is cut at its first [c]. *)
Lemma contains_cut (c : ascii) (s : string) :
  Py.contains c s = true ->
  exists pre post, s = pre ++ String c post /\ Py.contains c pre = false.
Proof.
  induction s as [|a s IH]; simpl; [discriminate |].
  destruct (Ascii.eqb a c) eqn:E.
  - intros _. apply Ascii.eqb_eq in E. subst a.
    exists "", s. split; reflexivity.
  - intros H. destruct (IH H) as (pre & post & -> & Hpre).
    exists (String a pre), post. simpl. rewrite E. split; [reflexivity | exact Hpre].
Qed.

Lemma split_not_nil (c : ascii) (s : string) : Py.split c s <> [].
Proof.
  destruct s as [|a s]; simpl; [discriminate |].
  destruct (Ascii.eqb a c); [discriminate |].
  destruct (Py.split c s); discriminate.
Qed.

Lemma split_without (c : ascii) (s : string) :
  Py.contains c s = false -> Py.split c s = [s].
Proof.
  induction s as [|a s IH]; simpl; [reflexivity |].
  destruct (Ascii.eqb a c); [discriminate |].
  intros H. now rewrite (IH H).
Qed.

Lemma split_cut (c : ascii) (pre post : string) :
  Py.contains c pre = false ->
  Py.split c (pre ++ String c post) = pre :: Py.split c post.
Proof.
  induction pre as [|a pre IH]; simpl.
  - intros _. now rewrite Ascii.eqb_refl.
  - destruct (Ascii.eqb a c); [discriminate |].
    intros H. now rewrite (IH H).
Qed.

Lemma split1_without (c : ascii) (s : string) :
  Py.contains c s = false -> Py.split1 c s = [s].
Proof.
  induction s as [|a s IH]; simpl; [reflexivity |].
  destruct (Ascii.eqb a c); [discriminate |].
  intros H. now rewrite (IH H).
Qed.

Lemma split1_cut (c : ascii) (pre post : string) :
  Py.contains c pre = false ->
  Py.split1 c (pre ++ String c post) = [pre; post].
Proof.
  induction pre as [|a pre IH]; simpl.
  - intros _. now rewrite Ascii.eqb_refl.
  - destruct (Ascii.eqb a c); [discriminate |].
    intros H. now rewrite (IH H).
Qed.

(** The first piece of a split holds no separator and starts the string. *)
Lemma first_split (c : ascii) (s : string) :
  Py.contains c (Py.first (Py.split c s)) = false /\
  (Py.contains c s = false -> Py.first (Py.split c s) = s) /\
  (Py.contains c s = true ->
   exists rest, s = Py.first (Py.split c s) ++ String c rest).
Proof.
  destruct (Py.contains c s) eqn:E.
  - destruct (contains_cut c s E) as (pre & post & -> & Hpre).
    rewrite (split_cut _ _ _ Hpre). simpl. repeat split.
    + exact Hpre.
    + discriminate.
    + intros _. now exists post.
  - rewrite (split_without _ _ E). simpl. repeat split.
    + exact E.
    + discriminate.
Qed.

(** The last piece of a split holds no separator and ends the string. *)
Lemma last_split (c : ascii) (s : string) :
  Py.contains c (Py.last (Py.split c s)) = false /\
  (Py.contains c s = false -> Py.last (Py.split c s) = s) /\
  (Py.contains c s = true ->
   exists rest, s = rest ++ String c (Py.last (Py.split c s))).
Proof.
  unfold Py.last.
  induction s as [|a s (IH1 & IH2 & IH3)]; simpl.
  - repeat split; discriminate.
  - destruct (Ascii.eqb a c) eqn:E.
    + apply Ascii.eqb_eq in E. subst a.
      destruct (Py.split c s) as [|h t] eqn:S; [now destruct (split_not_nil c s) |].
      change (List.last ("" :: h :: t) "") with (List.last (h :: t) "").
      repeat split.
      * exact IH1.
      * discriminate.
      * intros _. destruct (Py.contains c s) eqn:C.
        -- destruct (IH3 eq_refl) as (rest & Hrest).
           exists (String c rest). cbn [append]. f_equal. exact Hrest.
        -- exists "". cbn [append]. f_equal. symmetry. exact (IH2 eq_refl).
    + destruct (Py.contains c s) eqn:C.
      * destruct (contains_cut c s C) as (pre & post & Hs & Hpre).
        rewrite Hs, (split_cut _ _ _ Hpre) in *.
        destruct (Py.split c post) as [|h t] eqn:S; [now destruct (split_not_nil c post) |].
        change (List.last (String a pre :: h :: t) "") with (List.last (h :: t) "").
        change (List.last (pre :: h :: t) "") with (List.last (h :: t) "") in *.
        repeat split.
        -- exact IH1.
        -- discriminate.
        -- intros _. destruct (IH3 eq_refl) as (rest & Hrest).
           exists (String a rest). cbn [append]. f_equal. exact Hrest.
      * rewrite (split_without _ _ C) in *. simpl in *.
        rewrite E, C. repeat split; discriminate.
Qed.

(** A string that starts with a non-blank has a first word. *)
Lemma split_ws_not_nil (a : ascii) (s : string) :
  Py.isspace a = false -> Py.split_ws (String a s) <> [].
Proof.
  intros H. cbn [Py.split_ws]. rewrite H.
  destruct s as [|b s]; [discriminate |].
  destruct (Py.isspace b); [discriminate |].
  destruct (Py.split_ws (String b s)); discriminate.
Qed.

(** Words on either side of a blank do not interfere. *)
Lemma split_ws_space_app (s t : string) :
  Py.split_ws (s ++ String " " t) = (Py.split_ws s ++ Py.split_ws t)%list.
Proof.
  induction s as [|a s IH].
  - reflexivity.
  - cbn [append]. cbn [Py.split_ws]. fold Py.split_ws.
    destruct (Py.isspace a) eqn:Ea; [exact IH |].
    destruct s as [|b s].
    + reflexivity.
    + cbn [append] in *.
      destruct (Py.isspace b) eqn:Eb.
      * now rewrite IH.
      * rewrite IH.
        destruct (Py.split_ws (String b s)) as [|h w] eqn:W;
          [now destruct (split_ws_not_nil b s Eb) | reflexivity].
Qed.

Lemma split_ws_join (l : list string) :
  Py.split_ws (Py.join " " l) = flat_map Py.split_ws l.
Proof.
  unfold Py.join.
  induction l as [|x l IH]; [reflexivity |].
  destruct l as [|y l].
  - simpl. now rewrite app_nil_r.
  - change (String.concat " " (x :: y :: l))
      with (x ++ String " " (String.concat " " (y :: l))).
    rewrite split_ws_space_app, IH. reflexivity.
Qed.

(** An option that is a single word shows up as a word of the joined
    options. *)
Lemma word_in_join (o : string) (l : list string) :
  In o l -> Py.split_ws o = [o] -> In o (Py.split_ws (Py.join " " l)).
Proof.
  intros Hin Hword. rewrite split_ws_join. apply in_flat_map.
  exists o. split; [exact Hin |]. rewrite Hword. now left.
Qed.

Lemma split_two (c : ascii) (s : string) :
  Py.contains c s = true -> exists h1 h2 t, Py.split c s = h1 :: h2 :: t.
Proof.
  intros H. destruct (contains_cut c s H) as (pre & post & -> & Hpre).
  rewrite (split_cut _ _ _ Hpre).
  destruct (Py.split c post) as [|h t] eqn:S; [now destruct (split_not_nil c post) |].
  now exists pre, h, t.
Qed.

(** Cutting at a separator that has none after it gives the last piece. *)
Lemma last_split_cut (c : ascii) (pre post : string) :
  Py.contains c post = false ->
  Py.last (Py.split c (pre ++ String c post)) = post.
Proof.
  intros Hpost. unfold Py.last.
  induction pre as [|a pre IH]; cbn [append Py.split].
  - rewrite Ascii.eqb_refl, (split_without _ _ Hpost). reflexivity.
  - assert (Hc : Py.contains c (pre ++ String c post) = true).
    { rewrite contains_app. simpl. rewrite Ascii.eqb_refl. apply Bool.orb_true_r. }
    destruct (split_two c _ Hc) as (h1 & h2 & t & S).
    rewrite S in *.
    destruct (Ascii.eqb a c); exact IH.
Qed.

End StringFacts.

(** * The destination parser *)

Section ParserFacts.

Variable expanduser : string -> string.
Variable abspath : string -> string.

Lemma is_remote_colon (arg : string) :
  _is_remote arg = true -> Py.contains ":" arg = true.
Proof.
  unfold _is_remote. intros H.
  destruct (first_split "/" arg) as (_ & Hno & Hyes).
  destruct (Py.contains "/" arg) eqn:E.
  - destruct (Hyes eq_refl) as (rest & Hrest).
    rewrite Hrest, contains_app, H. reflexivity.
  - now rewrite <- (Hno eq_refl).
Qed.

(** A remote argument is cut at its first colon. *)
Lemma remote_cut (arg : string) :
  _is_remote arg = true ->
  exists head path,
    arg = head ++ ":" ++ path /\ Py.contains ":" head = false /\
    Py.split1 ":" arg = [head; path].
Proof.
  intros H. destruct (contains_cut ":" arg (is_remote_colon arg H))
    as (head & path & -> & Hhead).
  exists head, path. repeat split; [exact Hhead |].
  now apply split1_cut.
Qed.

(** The classification in the words of the rule: a colon with no slash
    before it. *)
Lemma is_remote_iff (arg : string) :
  _is_remote arg = true <->
  exists pre post, arg = pre ++ ":" ++ post /\ Py.contains "/" pre = false.
Proof.
  unfold _is_remote. split.
  - intros H.
    destruct (first_split "/" arg) as (Hfirst & Hno & Hyes).
    destruct (contains_cut ":" _ H) as (pre & post & Hcut & _).
    assert (Hpre : Py.contains "/" pre = false).
    { rewrite Hcut, contains_app in Hfirst.
      now apply Bool.orb_false_iff in Hfirst. }
    destruct (Py.contains "/" arg) eqn:E.
    + destruct (Hyes eq_refl) as (rest & Hrest).
      exists pre, (post ++ String "/" rest). split; [| exact Hpre].
      rewrite Hrest at 1. rewrite Hcut, append_assoc. reflexivity.
    + exists pre, post. split; [| exact Hpre].
      rewrite <- (Hno eq_refl). exact Hcut.
  - intros (pre & post & -> & Hpre).
    destruct (Py.contains "/" post) eqn:E.
    + destruct (contains_cut "/" post E) as (p1 & p2 & -> & Hp1).
      change (pre ++ ":" ++ p1 ++ String "/" p2)
        with (pre ++ String ":" (p1 ++ String "/" p2)).
      replace (pre ++ String ":" (p1 ++ String "/" p2))
        with ((pre ++ String ":" p1) ++ String "/" p2)
        by (now rewrite append_assoc).
      rewrite split_cut.
      * simpl. rewrite contains_app. simpl. now rewrite Bool.orb_true_r.
      * rewrite contains_app, Hpre. simpl. exact Hp1.
    + rewrite split_without.
      * simpl. rewrite contains_app. simpl. now rewrite Bool.orb_true_r.
      * rewrite contains_app, Hpre. simpl. exact E.
Qed.

(** The unpacking in [_parse_rsync_arg] never fails: every argument parses,
    and the host is [None] exactly for a local one. *)
Lemma parse_total (arg : string) :
  exists user host path,
    _parse_rsync_arg expanduser abspath arg = Ok (user, host, path) /\
    (host = None <-> _is_remote arg = false).
Proof.
  unfold _parse_rsync_arg. destruct (_is_remote arg) eqn:R.
  - destruct (remote_cut arg R) as (head & path & _ & _ & ->).
    do 3 eexists. split; [reflexivity |]. split; discriminate.
  - do 3 eexists. split; [reflexivity |]. split; reflexivity.
Qed.

End ParserFacts.

(** * The commands [snapshot] builds *)

Section CommandFacts.

Variable env : Env.

(** [rsync_cmd] in one piece: the tool, the options, the source, the
    target. *)
Lemma rsync_cmd_shape (options : list string) (source : string)
    (user host : option string) (root : string) :
  rsync_cmd options source user host root
  = "rsync " ++ Py.join " " options ++ " " ++ source ++ " "
    ++ remote_prefix user host ++ root ++ "/incomplete.snapshot".
Proof.
  unfold rsync_cmd, remote_prefix.
  destruct host as [h|], user as [u|];
    repeat (rewrite !append_assoc; cbn [append]); reflexivity.
Qed.

(** [mv_cmd] in one piece, run through ssh for a remote destination. *)
Lemma mv_cmd_shape (user host : option string) (root date : string) :
  mv_cmd user host root date
  = match host with
    | None =>
        "mv " ++ root ++ "/incomplete.snapshot " ++ root ++ "/" ++ date ++ ".snapshot"
    | Some h =>
        "ssh " ++ ssh_login user h ++ " " ++ dquote
        ++ "mv " ++ root ++ "/incomplete.snapshot " ++ root ++ "/" ++ date
        ++ ".snapshot" ++ dquote
    end.
Proof.
  unfold mv_cmd, ssh_login.
  destruct host as [h|], user as [u|];
    repeat (rewrite !append_assoc; cbn [append]); reflexivity.
Qed.

(** The words of [rsync_cmd]: the tool, the words of each option, then
    those of the source and the target. *)
Lemma rsync_cmd_words (options : list string) (source : string)
    (user host : option string) (root : string) :
  Py.split_ws (rsync_cmd options source user host root)
  = ("rsync" :: flat_map Py.split_ws options
     ++ Py.split_ws (source ++ " " ++ remote_prefix user host ++ root
                     ++ "/incomplete.snapshot"))%list.
Proof.
  rewrite rsync_cmd_shape.
  change ("rsync " ++ ?x) with ("rsync" ++ String " " x).
  rewrite split_ws_space_app.
  change (Py.join " " options ++ " " ++ ?x)
    with (Py.join " " options ++ String " " x).
  rewrite split_ws_space_app, split_ws_join. reflexivity.
Qed.

(** An option of one word is one of the words of [rsync_cmd]. *)
Lemma option_in_rsync_cmd (o : string) (options : list string) (source : string)
    (user host : option string) (root : string) :
  In o options -> Py.split_ws o = [o] ->
  In o (Py.split_ws (rsync_cmd options source user host root)).
Proof.
  intros Hin Hword. rewrite rsync_cmd_words. right. apply in_or_app. left.
  apply in_flat_map. exists o. split; [exact Hin |]. rewrite Hword. now left.
Qed.

Lemma fixed_option_in_options (o : string) (debug : bool)
    (exclude : option (list string)) :
  In o fixed_options -> In o (rsync_options env debug exclude).
Proof. intros H. unfold rsync_options. apply in_or_app. now left. Qed.

(** Building the commands never fails. *)
Lemma build_commands_ok {C : Type} (source dest : string) (debug : bool)
    (compress : C) (exclude : option (list string)) :
  exists user host root,
    _parse_rsync_arg (expanduser env) (abspath env) dest = Ok (user, host, root) /\
    (host = None <-> _is_remote dest = false) /\
    build_commands env source dest debug compress exclude
    = Ok {| the_rsync_cmd :=
              rsync_cmd (rsync_options env debug exclude)
                (with_trailing_sep source) user host root;
            the_mv_cmd := mv_cmd user host root (_datetime env);
            the_rm_cmd := rm_cmd root;
            the_ln_cmd := ln_cmd root (_datetime env) |}.
Proof.
  destruct (parse_total (expanduser env) (abspath env) dest)
    as (user & host & root & Hparse & Hhost).
  exists user, host, root. split; [exact Hparse |]. split; [exact Hhost |].
  unfold build_commands, with_trailing_sep. rewrite Hparse.
  destruct (Py.endswith source os_sep); reflexivity.
Qed.

End CommandFacts.

(** * Running commands *)

Section RunFacts.

Variable env : Env.

Lemma words_after (w x : string) :
  Py.split_ws w = [w] -> Py.split_ws (w ++ String " " x) = w :: Py.split_ws x.
Proof. intros H. now rewrite split_ws_space_app, H. Qed.

Lemma rsync_cmd_runnable (options : list string) (source : string)
    (user host : option string) (root : string) :
  Py.split_ws (rsync_cmd options source user host root) <> [].
Proof. rewrite rsync_cmd_words. discriminate. Qed.

Lemma mv_cmd_runnable (user host : option string) (root date : string) :
  Py.split_ws (mv_cmd user host root date) <> [].
Proof.
  rewrite mv_cmd_shape. destruct host as [h|].
  - change ("ssh " ++ ?x) with ("ssh" ++ String " " x).
    rewrite words_after; [discriminate | reflexivity].
  - change ("mv " ++ ?x) with ("mv" ++ String " " x).
    rewrite words_after; [discriminate | reflexivity].
Qed.

Lemma rm_cmd_runnable (root : string) : Py.split_ws (rm_cmd root) <> [].
Proof.
  unfold rm_cmd. change ("rm -f " ++ ?x) with ("rm" ++ String " " ("-f " ++ x)).
  rewrite words_after; [discriminate | reflexivity].
Qed.

Lemma ln_cmd_runnable (root date : string) : Py.split_ws (ln_cmd root date) <> [].
Proof.
  unfold ln_cmd. change ("ln -s " ++ ?x) with ("ln" ++ String " " ("-s " ++ x)).
  rewrite words_after; [discriminate | reflexivity].
Qed.

(** [_run] on a command with at least one word: the process is launched
    once, and its fate decides between the output and the exception. *)
Lemma run_outcome (command : string) (tr : list event) :
  Py.split_ws command <> [] ->
  _run env command tr
  = let o := popen env tr (Py.split_ws command) in
    ((tr ++ [Exec (Py.split_ws command) o])%list,
     match o with
     | Exited output returncode =>
         if returncode =? 0 then Ok output else Raise (run_failure command o)
     | NotStarted _ _ => Raise (run_failure command o)
     end).
Proof.
  intros Hwords. unfold _run, try_except, check_output.
  destruct (Py.split_ws command) as [|a w]; [now destruct Hwords |].
  cbv zeta. destruct (popen env tr (a :: w)) as [output code | errno strerror].
  - cbn [run_failure]. destruct (code =? 0); reflexivity.
  - cbn [run_failure]. destruct (errno =? 2); reflexivity.
Qed.

(** [_run] on a command with no word at all launches nothing. *)
Lemma run_no_words (command : string) (tr : list event) :
  Py.split_ws command = [] -> _run env command tr = (tr, Raise IndexError).
Proof. intros H. unfold _run, try_except, check_output. now rewrite H. Qed.

(** Echo a command, run it, and go on only if it succeeded. *)
Lemma echo_run (command : string) (k : M unit) (tr : list event) :
  Py.split_ws command <> [] ->
  (print command ;; _run env command ;; k) tr
  = let o := popen env (tr ++ [Echo command]) (Py.split_ws command) in
    let tr' := (tr ++ [Echo command; Exec (Py.split_ws command) o])%list in
    if succeeded o then k tr' else (tr', Raise (run_failure command o)).
Proof.
  intros Hwords. unfold bind at 1. unfold print at 1. unfold bind at 1.
  rewrite (run_outcome _ _ Hwords). cbv zeta.
  rewrite <- app_assoc. cbn [app].
  destruct (popen env (tr ++ [Echo command]) (Py.split_ws command))
    as [output code | errno strerror]; cbn [succeeded].
  - destruct (code =? 0); reflexivity.
  - reflexivity.
Qed.

Lemma launched_app (tr1 tr2 : list event) :
  launched (tr1 ++ tr2) = (launched tr1 ++ launched tr2)%list.
Proof.
  induction tr1 as [|[line | argv o] tr1 IH]; simpl; [reflexivity | exact IH |].
  now rewrite IH.
Qed.

End RunFacts.

(** C9. [_run] raises [CalledProcessError], with the command, the merged
    output and the exit status, exactly when the process ran and exited
    non-zero.  When the process could not be started because the executable
    was not found ([OSError] with errno 2) it raises [NoSuchCommandError];
    and a process that could not be started never gives
    [CalledProcessError]. *)
Theorem run_failure_types (env : Env) (command : string) (tr : list event) :
  (forall c output code,
     snd (_run env command tr) = Raise (CalledProcessError c output code) <->
     c = command /\ Py.split_ws command <> [] /\
     popen env tr (Py.split_ws command) = Exited output code /\ code <> 0) /\
  (forall strerror,
     Py.split_ws command <> [] ->
     popen env tr (Py.split_ws command) = NotStarted 2 strerror ->
     snd (_run env command tr) = Raise (NoSuchCommandError command strerror)) /\
  (forall errno strerror c output code,
     popen env tr (Py.split_ws command) = NotStarted errno strerror ->
     snd (_run env command tr) <> Raise (CalledProcessError c output code)).
Proof.
  destruct (Py.split_ws command) as [|a w] eqn:W.
  - rewrite (run_no_words env command tr W). cbn [snd].
    split; [| split].
    + intros c output code. split; [discriminate |].
      intros (_ & H & _). now destruct H.
    + intros strerror H. now destruct H.
    + discriminate.
  - assert (Hwords : Py.split_ws command <> []) by (rewrite W; discriminate).
    rewrite (run_outcome env command tr Hwords). cbv zeta. rewrite W. cbn [snd].
    destruct (popen env tr (a :: w)) as [out rc | errno strerror] eqn:P;
      cbn [run_failure].
    + split; [| split].
      * intros c output code. split.
        -- destruct (Z.eqb_spec rc 0) as [|Hrc]; [discriminate |].
           intros E. injection E as <- <- <-. now repeat split.
        -- intros (-> & _ & E & Hcode). injection E as -> ->.
           destruct (Z.eqb_spec code 0); [contradiction | reflexivity].
      * discriminate.
      * discriminate.
    + split; [| split].
      * intros c output code. split.
        -- destruct (errno =? 2); discriminate.
        -- intros (_ & _ & E & _). discriminate.
      * intros s _ E. injection E as -> ->. reflexivity.
      * intros e s c o x _. destruct (errno =? 2); discriminate.
Qed.

Lemma run_failure_types_witness :
  snd (_run (Sample.env false (Sample.missing "rsync")) "rsync -a /src/ /dst" [])
  = Raise (NoSuchCommandError "rsync -a /src/ /dst" "No such file or directory") /\
  snd (_run (Sample.env false (Sample.fails "rsync" "oops" 12)) "rsync -a /src/ /dst" [])
  = Raise (CalledProcessError "rsync -a /src/ /dst" "oops" 12).
Proof.
  split.
  - refine (proj1 (proj2 (run_failure_types
                            (Sample.env false (Sample.missing "rsync"))
                            "rsync -a /src/ /dst" []))
              "No such file or directory" _ eq_refl).
    discriminate.
  - refine (proj2 (proj1 (run_failure_types
                            (Sample.env false (Sample.fails "rsync" "oops" 12))
                            "rsync -a /src/ /dst" [])
                     "rsync -a /src/ /dst" "oops" 12)
              (conj eq_refl (conj _ (conj eq_refl _)))); discriminate.
Defined.

(** * The run of [snapshot] *)

Section SnapshotFacts.

Variable env : Env.

(** Every command [snapshot] builds has a first word to execute. *)
Lemma built_runnable {C : Type} (source dest : string) (debug : bool)
    (compress : C) (exclude : option (list string)) (c : commands) :
  build_commands env source dest debug compress exclude = Ok c ->
  Py.split_ws (the_rsync_cmd c) <> [] /\ Py.split_ws (the_mv_cmd c) <> [] /\
  Py.split_ws (the_rm_cmd c) <> [] /\ Py.split_ws (the_ln_cmd c) <> [].
Proof.
  destruct (build_commands_ok env source dest debug compress exclude)
    as (user & host & root & _ & _ & Hbuild).
  rewrite Hbuild. intros E. injection E as <-. cbn.
  repeat split.
  - apply rsync_cmd_runnable.
  - apply mv_cmd_runnable.
  - apply rm_cmd_runnable.
  - apply ln_cmd_runnable.
Qed.

Lemma snapshot_built {C : Type} (source dest : string) (debug : bool)
    (compress : C) (exclude : option (list string)) (c : commands)
    (tr : list event) :
  build_commands env source dest debug compress exclude = Ok c ->
  snapshot env source dest debug compress exclude tr = run_commands env debug c tr.
Proof. intros H. unfold snapshot, bind, lift. now rewrite H. Qed.

(** A trial run: the sync command is echoed and launched, nothing else. *)
Lemma run_commands_trial (c : commands) (tr : list event) :
  Py.split_ws (the_rsync_cmd c) <> [] ->
  run_commands env true c tr
  = (after_run env tr (the_rsync_cmd c),
     if succeeded (fate env tr (the_rsync_cmd c)) then Ok tt
     else Raise (run_failure (the_rsync_cmd c) (fate env tr (the_rsync_cmd c)))).
Proof.
  intros H. unfold run_commands. cbn [negb].
  rewrite (echo_run env _ (ret tt) tr H). cbv zeta.
  fold (fate env tr (the_rsync_cmd c)). fold (after_run env tr (the_rsync_cmd c)).
  destruct (succeeded (fate env tr (the_rsync_cmd c))); reflexivity.
Qed.

(** A real run: each command is echoed and launched in turn, and the first
    one that does not succeed ends the run with its exception. *)
Lemma run_commands_real (c : commands) (tr : list event) :
  Py.split_ws (the_rsync_cmd c) <> [] -> Py.split_ws (the_mv_cmd c) <> [] ->
  Py.split_ws (the_rm_cmd c) <> [] -> Py.split_ws (the_ln_cmd c) <> [] ->
  let tr1 := after_run env tr (the_rsync_cmd c) in
  let tr2 := after_run env tr1 (the_mv_cmd c) in
  let tr3 := after_run env tr2 (the_rm_cmd c) in
  let tr4 := after_run env tr3 (the_ln_cmd c) in
  run_commands env false c tr
  = if negb (succeeded (fate env tr (the_rsync_cmd c)))
    then (tr1, Raise (run_failure (the_rsync_cmd c) (fate env tr (the_rsync_cmd c))))
    else if negb (succeeded (fate env tr1 (the_mv_cmd c)))
    then (tr2, Raise (run_failure (the_mv_cmd c) (fate env tr1 (the_mv_cmd c))))
    else if negb (succeeded (fate env tr2 (the_rm_cmd c)))
    then (tr3, Raise (run_failure (the_rm_cmd c) (fate env tr2 (the_rm_cmd c))))
    else if negb (succeeded (fate env tr3 (the_ln_cmd c)))
    then (tr4, Raise (run_failure (the_ln_cmd c) (fate env tr3 (the_ln_cmd c))))
    else (tr4, Ok tt).
Proof.
  intros H1 H2 H3 H4. cbv zeta. unfold run_commands. cbn [negb].
  rewrite (echo_run env _ _ tr H1). cbv zeta.
  fold (fate env tr (the_rsync_cmd c)). fold (after_run env tr (the_rsync_cmd c)).
  destruct (succeeded (fate env tr (the_rsync_cmd c))); [| reflexivity]. cbn [negb].
  rewrite (echo_run env _ _ _ H2). cbv zeta.
  set (tr1 := after_run env tr (the_rsync_cmd c)).
  fold (fate env tr1 (the_mv_cmd c)). fold (after_run env tr1 (the_mv_cmd c)).
  destruct (succeeded (fate env tr1 (the_mv_cmd c))); [| reflexivity]. cbn [negb].
  rewrite (echo_run env _ _ _ H3). cbv zeta.
  set (tr2 := after_run env tr1 (the_mv_cmd c)).
  fold (fate env tr2 (the_rm_cmd c)). fold (after_run env tr2 (the_rm_cmd c)).
  destruct (succeeded (fate env tr2 (the_rm_cmd c))); [| reflexivity]. cbn [negb].
  rewrite (echo_run env _ _ _ H4). cbv zeta.
  set (tr3 := after_run env tr2 (the_rm_cmd c)).
  fold (fate env tr3 (the_ln_cmd c)). fold (after_run env tr3 (the_ln_cmd c)).
  destruct (succeeded (fate env tr3 (the_ln_cmd c))); reflexivity.
Qed.

End SnapshotFacts.

(** C3, as the code has it.  In a trial run the sync command carries
    [--dry-run], and it is the only command echoed and the only one launched,
    whatever becomes of it.  (The three promotion commands are built all the
    same, before the sync command runs; they are never used.) *)
Theorem trial_run_only_syncs (env : Env) (C : Type) (source dest : string)
    (compress : C) (exclude : option (list string)) (tr : list event) :
  exists c,
    build_commands env source dest true compress exclude = Ok c /\
    In "--dry-run" (rsync_options env true exclude) /\
    In "--dry-run" (Py.split_ws (the_rsync_cmd c)) /\
    snapshot env source dest true compress exclude tr
    = ((tr ++ [Echo (the_rsync_cmd c);
               Exec (Py.split_ws (the_rsync_cmd c)) (fate env tr (the_rsync_cmd c))])%list,
       if succeeded (fate env tr (the_rsync_cmd c)) then Ok tt
       else Raise (run_failure (the_rsync_cmd c) (fate env tr (the_rsync_cmd c)))).
Proof.
  destruct (build_commands_ok env source dest true compress exclude)
    as (user & host & root & _ & _ & Hbuild).
  eexists. split; [exact Hbuild |].
  assert (Hin : In "--dry-run" (rsync_options env true exclude)).
  { unfold rsync_options. apply in_or_app. right. apply in_or_app. right.
    now left. }
  split; [exact Hin |]. split.
  - cbn [the_rsync_cmd]. apply option_in_rsync_cmd; [exact Hin | reflexivity].
  - rewrite (snapshot_built env _ _ _ _ _ _ tr Hbuild).
    apply run_commands_trial. apply rsync_cmd_runnable.
Qed.

(** C3, as the claim words it, fails on its first half: with the trial
    flag set the rename, the removal and the link command are built. *)
Lemma trial_run_builds_promotion_counterexample :
  exists c,
    build_commands (Sample.env false Sample.all_succeed)
      "/data" "/backup" true true None = Ok c /\
    the_mv_cmd c
    = "mv /backup/incomplete.snapshot /backup/2026-11-03T09_05_00.snapshot" /\
    the_rm_cmd c = "rm -f /backup/latest.snapshot" /\
    the_ln_cmd c = "ln -s 2026-11-03T09_05_00.snapshot /backup/latest.snapshot".
Proof. eexists. repeat split. Qed.

(** C4. When the sync command exits with a non-zero status, [snapshot]
    raises [CalledProcessError] with that command, its merged output and its
    exit status, and the sync command is the only process it has launched. *)
Theorem sync_failure_stops (env : Env) (C : Type) (source dest : string)
    (debug : bool) (compress : C) (exclude : option (list string))
    (tr : list event) (c : commands) (output : string) (code : Z) :
  build_commands env source dest debug compress exclude = Ok c ->
  fate env tr (the_rsync_cmd c) = Exited output code ->
  code <> 0 ->
  snapshot env source dest debug compress exclude tr
  = ((tr ++ [Echo (the_rsync_cmd c);
             Exec (Py.split_ws (the_rsync_cmd c)) (Exited output code)])%list,
     Raise (CalledProcessError (the_rsync_cmd c) output code)) /\
  launched (fst (snapshot env source dest debug compress exclude tr))
  = (launched tr ++ [Py.split_ws (the_rsync_cmd c)])%list.
Proof.
  intros Hbuild Hfate Hcode.
  destruct (built_runnable env _ _ _ _ _ _ Hbuild) as (H1 & H2 & H3 & H4).
  assert (Hfail : succeeded (fate env tr (the_rsync_cmd c)) = false).
  { rewrite Hfate. cbn. now apply Z.eqb_neq. }
  assert (Hrun :
    snapshot env source dest debug compress exclude tr
    = ((tr ++ [Echo (the_rsync_cmd c);
               Exec (Py.split_ws (the_rsync_cmd c)) (Exited output code)])%list,
       Raise (CalledProcessError (the_rsync_cmd c) output code))).
  { rewrite (snapshot_built env _ _ _ _ _ _ tr Hbuild). destruct debug.
    - rewrite (run_commands_trial env c tr H1), Hfail.
      unfold after_run. now rewrite Hfate.
    - rewrite (run_commands_real env c tr H1 H2 H3 H4), Hfail. cbn [negb].
      unfold after_run. now rewrite Hfate. }
  split; [exact Hrun |].
  rewrite Hrun. cbn [fst]. now rewrite launched_app.
Qed.

Lemma sync_failure_stops_witness :
  snapshot (Sample.env false (Sample.fails "rsync" "rsync error" 23))
    "/data" "/backup" false true None []
  = ([Echo "rsync --archive --partial --partial-dir=partially_transferred_files --one-file-system --delete --delete-excluded --itemize-changes --link-dest=../latest.snapshot --human-readable --quiet --compress --fuzzy /data/ /backup/incomplete.snapshot";
      Exec ["rsync"; "--archive"; "--partial";
            "--partial-dir=partially_transferred_files"; "--one-file-system";
            "--delete"; "--delete-excluded"; "--itemize-changes";
            "--link-dest=../latest.snapshot"; "--human-readable"; "--quiet";
            "--compress"; "--fuzzy"; "/data/"; "/backup/incomplete.snapshot"]
           (Exited "rsync error" 23)],
     Raise (CalledProcessError "rsync --archive --partial --partial-dir=partially_transferred_files --one-file-system --delete --delete-excluded --itemize-changes --link-dest=../latest.snapshot --human-readable --quiet --compress --fuzzy /data/ /backup/incomplete.snapshot" "rsync error" 23)).
Proof.
  refine (proj1 (sync_failure_stops
                   (Sample.env false (Sample.fails "rsync" "rsync error" 23)) bool
                   "/data" "/backup" false true None [] _ "rsync error" 23
                   eq_refl eq_refl _)).
  discriminate.
Defined.

(** C2, as the claim words it, fails when a promotion command fails: here
    the sync command exits with status 0 and the rename with status 1, and
    the rename is the only promotion command launched. *)
Lemma promotion_stops_counterexample :
  snapshot (Sample.env false (Sample.fails "mv" "mv: cannot move" 1))
    "/data" "/backup" false true None []
  = ([Echo "rsync --archive --partial --partial-dir=partially_transferred_files --one-file-system --delete --delete-excluded --itemize-changes --link-dest=../latest.snapshot --human-readable --quiet --compress --fuzzy /data/ /backup/incomplete.snapshot";
      Exec ["rsync"; "--archive"; "--partial";
            "--partial-dir=partially_transferred_files"; "--one-file-system";
            "--delete"; "--delete-excluded"; "--itemize-changes";
            "--link-dest=../latest.snapshot"; "--human-readable"; "--quiet";
            "--compress"; "--fuzzy"; "/data/"; "/backup/incomplete.snapshot"]
           (Exited "" 0);
      Echo "mv /backup/incomplete.snapshot /backup/2026-11-03T09_05_00.snapshot";
      Exec ["mv"; "/backup/incomplete.snapshot";
            "/backup/2026-11-03T09_05_00.snapshot"]
           (Exited "mv: cannot move" 1)],
     Raise (CalledProcessError
              "mv /backup/incomplete.snapshot /backup/2026-11-03T09_05_00.snapshot"
              "mv: cannot move" 1)).
Proof. vm_compute. reflexivity. Qed.

(** * The excludes file and the exclude patterns *)

(** The option that names the excludes file is there exactly when
    [~/.snapshotter/excludes], expanded, is a file; and it is always the same
    text, with [$HOME] spelled out, whatever the home directory is. *)
Lemma exclude_from_option (env : Env) (debug : bool)
    (exclude : option (list string)) :
  (In "--exclude-from=$HOME/.snapshotter/excludes" (rsync_options env debug exclude)
   <-> isfile env (expanduser env "~/.snapshotter/excludes") = true) /\
  (forall o,
     In o (rsync_options env debug exclude) ->
     Py.startswith o "--exclude-from=" = true ->
     o = "--exclude-from=$HOME/.snapshotter/excludes").
Proof.
  assert (Hpattern : forall o patterns,
            In o (map (fun pattern => "--exclude '" ++ pattern ++ "'") patterns) ->
            Py.startswith o "--exclude-from=" = false).
  { intros o patterns Hin. apply in_map_iff in Hin. destruct Hin as (p & <- & _).
    reflexivity. }
  assert (Hfixed : forall o, In o fixed_options ->
                             Py.startswith o "--exclude-from=" = false).
  { intros o Hin. unfold fixed_options in Hin. simpl in Hin.
    repeat (destruct Hin as [<- | Hin]; [reflexivity |]). contradiction. }
  assert (Hdry : forall o, In o (if debug then ["--dry-run"] else []) ->
                           Py.startswith o "--exclude-from=" = false).
  { intros o Hin. destruct debug; [| contradiction].
    destruct Hin as [<- | []]. reflexivity. }
  assert (Hexcl : forall o,
            In o match exclude with
                 | Some patterns =>
                     map (fun pattern => "--exclude '" ++ pattern ++ "'") patterns
                 | None => []
                 end ->
            Py.startswith o "--exclude-from=" = false).
  { intros o Hin. destruct exclude as [patterns|]; [| contradiction].
    now apply (Hpattern o patterns). }
  unfold rsync_options.
  destruct (isfile env (expanduser env "~/.snapshotter/excludes")).
  - split.
    + split; [reflexivity |]. intros _. apply in_or_app. right. now left.
    + intros o Hin Hstart.
      apply in_app_or in Hin. destruct Hin as [Hin | Hin];
        [rewrite (Hfixed o Hin) in Hstart; discriminate |].
      cbn [app] in Hin. destruct Hin as [<- | Hin]; [reflexivity |].
      apply in_app_or in Hin. destruct Hin as [Hin | Hin].
      * rewrite (Hdry o Hin) in Hstart. discriminate.
      * rewrite (Hexcl o Hin) in Hstart. discriminate.
  - assert (Hnone : forall o,
              In o (fixed_options ++ [] ++ (if debug then ["--dry-run"] else [])
                    ++ match exclude with
                       | Some patterns =>
                           map (fun pattern => ("--exclude '" ++ pattern ++ "'")%string)
                             patterns
                       | None => []
                       end)%list ->
              Py.startswith o "--exclude-from=" = false).
    { intros o Hin.
      apply in_app_or in Hin. destruct Hin as [Hin | Hin]; [now apply Hfixed |].
      cbn [app] in Hin.
      apply in_app_or in Hin. destruct Hin as [Hin | Hin];
        [now apply Hdry | now apply Hexcl]. }
    split.
    + split; [| discriminate]. intros Hin. apply Hnone in Hin. discriminate.
    + intros o Hin Hstart. rewrite (Hnone o Hin) in Hstart. discriminate.
Qed.

(** C8, at an account whose home is [/home/alice] and that has the file
    [/home/alice/.snapshotter/excludes]: rsync is handed the word
    [--exclude-from=$HOME/.snapshotter/excludes] as it stands (no shell
    stands between [_run] and the process), not the file that was found. *)
Lemma excludes_file_option_literal_home :
  expanduser (Sample.env true Sample.all_succeed) "~/.snapshotter/excludes"
  = "/home/alice/.snapshotter/excludes" /\
  isfile (Sample.env true Sample.all_succeed) "/home/alice/.snapshotter/excludes"
  = true /\
  launched (fst (snapshot (Sample.env true Sample.all_succeed)
                   "/data" "/backup" true true None []))
  = [ ["rsync"; "--archive"; "--partial";
       "--partial-dir=partially_transferred_files"; "--one-file-system";
       "--delete"; "--delete-excluded"; "--itemize-changes";
       "--link-dest=../latest.snapshot"; "--human-readable"; "--quiet";
       "--compress"; "--fuzzy"; "--exclude-from=$HOME/.snapshotter/excludes";
       "--dry-run"; "/data/"; "/backup/incomplete.snapshot"] ] /\
  ~ In "--exclude-from=/home/alice/.snapshotter/excludes"
      (rsync_options (Sample.env true Sample.all_succeed) true None).
Proof.
  repeat split. intros H.
  apply (proj2 (exclude_from_option _ _ _)) in H; [discriminate | reflexivity].
Qed.

(** * What parsing the command line does *)

Section ParseFacts.

Variable env : Env.

(** [_process_short_opts] returns without a trace, or exits with a status
    without a trace, or writes the help text and exits with status 0. *)
Lemma process_short_opts_outcome (chars : string) :
  forall values tr,
    (exists values', process_short_opts env chars values tr = (tr, Ok values')) \/
    (exists status,
       process_short_opts env chars values tr
       = (tr, Raise (SystemExit (ExitStatus status)))) \/
    process_short_opts env chars values tr
    = ((tr ++ [Echo (help_text env)])%list, Raise (SystemExit (ExitStatus 0))).
Proof.
  induction chars as [|ch chars IH]; intros values tr.
  - left. now exists values.
  - cbn [process_short_opts]. destruct (short_opt ch) as [[| |]|].
    + right. right. reflexivity.
    + apply IH.
    + right. left. now exists 2.
    + right. left. now exists 2.
Qed.

Lemma process_args_unfold (arg : string) (rest : list string)
    (values : Values) (largs : list string) :
  process_args env (arg :: rest) values largs
  = if String.eqb arg "--" then ret (values, (largs ++ rest)%list)
    else if Py.startswith arg "--" then
      let '(opt, explicit_value) :=
        match Py.split1 "=" arg with
        | [opt; next_arg] => (opt, Some next_arg)
        | _ => (arg, None)
        end in
      match match_long_opt opt, explicit_value with
      | None, _ => optparse_error
      | Some ActHelp, None => optparse_help env
      | Some ActDebug, None => process_args env rest (store_debug values) largs
      | Some ActExclude, Some value =>
          process_args env rest (append_exclude value values) largs
      | Some ActExclude, None =>
          match rest with
          | [] => optparse_error
          | value :: rest' =>
              process_args env rest' (append_exclude value values) largs
          end
      | Some _, Some _ => optparse_error
      end
    else
      match arg with
      | String "-" (String ch chars) =>
          values' <- process_short_opts env (String ch chars) values ;;
          process_args env rest values' largs
      | _ => process_args env rest values (largs ++ [arg])%list
      end.
Proof. reflexivity. Qed.

(** The same three outcomes for [_process_args]. *)
Lemma process_args_outcome (n : nat) :
  forall rargs values largs tr,
    (length rargs <= n)%nat ->
    (exists parsed, process_args env rargs values largs tr = (tr, Ok parsed)) \/
    (exists status,
       process_args env rargs values largs tr
       = (tr, Raise (SystemExit (ExitStatus status)))) \/
    process_args env rargs values largs tr
    = ((tr ++ [Echo (help_text env)])%list, Raise (SystemExit (ExitStatus 0))).
Proof.
  induction n as [|n IH]; intros rargs values largs tr Hlen.
  - destruct rargs; [| simpl in Hlen; lia]. left. now eexists.
  - destruct rargs as [|arg rest]; [left; now eexists |].
    assert (Hrest : (length rest <= n)%nat) by (simpl in Hlen; lia).
    rewrite process_args_unfold.
    destruct (String.eqb arg "--"); [left; now eexists |].
    destruct (Py.startswith arg "--").
    + destruct (match Py.split1 "=" arg with
                | [opt; next_arg] => (opt, Some next_arg)
                | _ => (arg, None)
                end) as [opt explicit].
      destruct (match_long_opt opt) as [[| |]|], explicit as [value|];
        try (right; left; now exists 2);
        try (right; right; reflexivity);
        try (apply IH; exact Hrest).
      destruct rest as [|value rest']; [right; left; now exists 2 |].
      apply IH. simpl in Hrest. lia.
    + assert (Hdefault :
        (exists parsed,
           process_args env rest values (largs ++ [arg]) tr = (tr, Ok parsed)) \/
        (exists status,
           process_args env rest values (largs ++ [arg]) tr
           = (tr, Raise (SystemExit (ExitStatus status)))) \/
        process_args env rest values (largs ++ [arg]) tr
        = ((tr ++ [Echo (help_text env)])%list, Raise (SystemExit (ExitStatus 0))))
        by (apply IH; exact Hrest).
      destruct arg as [|a arg]; [exact Hdefault |].
      destruct arg as [|ch chars];
        [destruct a as [[] [] [] [] [] [] [] []]; exact Hdefault |].
      destruct a as [[] [] [] [] [] [] [] []]; try exact Hdefault.
      unfold bind.
      destruct (process_short_opts_outcome (String ch chars) values tr)
        as [(values' & ->) | [(status & ->) | ->]].
      * apply IH; exact Hrest.
      * right. left. now exists status.
      * right. right. reflexivity.
Qed.

(** [_parse_cli] returns without a trace, or raises
    [CommandLineArgumentsError] with the usage line without a trace, or
    exits as [optparse] does. *)
Lemma parse_cli_outcome (args : list string) (tr : list event) :
  (exists parsed, _parse_cli env args tr = (tr, Ok parsed)) \/
  _parse_cli env args tr = (tr, Raise (CommandLineArgumentsError (get_usage env))) \/
  (exists status,
     _parse_cli env args tr = (tr, Raise (SystemExit (ExitStatus status)))) \/
  _parse_cli env args tr
  = ((tr ++ [Echo (help_text env)])%list, Raise (SystemExit (ExitStatus 0))).
Proof.
  unfold _parse_cli, parse_args, bind.
  destruct (process_args_outcome (length args) args
              {| debug_value := false; exclude_value := None |} [] tr (le_n _))
    as [([options positionals] & ->) | [(status & ->) | ->]].
  - destruct positionals as [|src [|dest [|third positionals]]];
      try (right; left; reflexivity).
    left. now eexists.
  - right. right. left. now exists status.
  - right. right. right. reflexivity.
Qed.

(** A command line that parses: [main] is the call of [snapshot] under its
    handler, from the same trace. *)
Lemma main_parsed (argv : list string) (src dest : string) (debug : bool)
    (exclude : option (list string)) (tr : list event) :
  snd (_parse_cli env argv tr) = Ok (src, dest, debug, exclude) ->
  main env argv tr
  = try_except (snapshot env src dest debug exclude None)
      (fun err =>
         match err with
         | CalledProcessError _ _ _ | NoSuchCommandError _ _ =>
             raise (SystemExit (ExitMessage (message_of err)))
         | _ => raise err
         end) tr.
Proof.
  intros P. unfold main. unfold bind at 1. unfold try_except at 1.
  destruct (parse_cli_outcome argv tr) as [(parsed & E) | [E | [(status & E) | E]]];
    rewrite E in P |- *; cbn [snd] in P; try discriminate.
  injection P as ->. reflexivity.
Qed.

(** A command line that does not parse: [main] launches nothing and ends
    with [SystemExit]. *)
Lemma main_not_parsed (argv : list string) (e : exn) (tr : list event) :
  snd (_parse_cli env argv tr) = Raise e ->
  launched (fst (main env argv tr)) = launched tr /\
  exists arg, snd (main env argv tr) = Raise (SystemExit arg).
Proof.
  intros P.
  assert (Hmain : forall tr' e',
            _parse_cli env argv tr = (tr', Raise e') ->
            main env argv tr
            = (tr', Raise (match e' with
                           | CommandLineArgumentsError _ =>
                               SystemExit (ExitMessage (message_of e'))
                           | _ => e'
                           end))).
  { intros tr' e' E. unfold main, bind, try_except. rewrite E.
    destruct e'; reflexivity. }
  destruct (parse_cli_outcome argv tr) as [(parsed & E) | [E | [(status & E) | E]]].
  - rewrite E in P. discriminate.
  - rewrite (Hmain _ _ E). split; [reflexivity | now eexists].
  - rewrite (Hmain _ _ E). split; [reflexivity | now eexists].
  - rewrite (Hmain _ _ E). split; [| now eexists].
    cbn [fst]. rewrite launched_app. cbn. now rewrite app_nil_r.
Qed.

End ParseFacts.

(** Through [main] the exclude patterns of the command line reach
    [snapshot] as its [compress] argument: the run is that of [snapshot]
    with no pattern at all. *)
Lemma main_passes_exclude_as_compress (env : Env) (argv : list string)
    (src dest : string) (debug : bool) (exclude : option (list string))
    (tr : list event) :
  snd (_parse_cli env argv tr) = Ok (src, dest, debug, exclude) ->
  fst (main env argv tr) = fst (snapshot env src dest debug exclude None tr).
Proof.
  intros H. rewrite (main_parsed env argv src dest debug exclude tr H).
  unfold try_except.
  destruct (snapshot env src dest debug exclude None tr) as [tr' [[]|e]];
    [reflexivity |].
  destruct e; reflexivity.
Qed.

(** C1, at the command line [--exclude .git/* /data /backup]: the pattern
    is parsed, and the sync command that [main] launches has no exclude
    option, while [snapshot] called with the pattern as [exclude] has it. *)
Lemma main_drops_exclude_patterns :
  _parse_cli (Sample.env false Sample.all_succeed)
    ["--exclude"; ".git/*"; "/data"; "/backup"] []
  = ([], Ok ("/data", "/backup", false, Some [".git/*"])) /\
  hd_error (launched (fst (main (Sample.env false Sample.all_succeed)
                             ["--exclude"; ".git/*"; "/data"; "/backup"] [])))
  = Some ["rsync"; "--archive"; "--partial";
          "--partial-dir=partially_transferred_files"; "--one-file-system";
          "--delete"; "--delete-excluded"; "--itemize-changes";
          "--link-dest=../latest.snapshot"; "--human-readable"; "--quiet";
          "--compress"; "--fuzzy"; "/data/"; "/backup/incomplete.snapshot"] /\
  hd_error (launched (fst (snapshot (Sample.env false Sample.all_succeed)
                             "/data" "/backup" false true (Some [".git/*"]) [])))
  = Some ["rsync"; "--archive"; "--partial";
          "--partial-dir=partially_transferred_files"; "--one-file-system";
          "--delete"; "--delete-excluded"; "--itemize-changes";
          "--link-dest=../latest.snapshot"; "--human-readable"; "--quiet";
          "--compress"; "--fuzzy"; "--exclude"; "'.git/*'"; "/data/";
          "/backup/incomplete.snapshot"].
Proof. repeat split. Qed.

(** C5. Whatever the source, the destination and the options, the sync
    command ends with the target [<root>/incomplete.snapshot], where root is
    the path the destination parses to, with [[user@]host:] before it
    exactly when the destination is remote; and [--link-dest=../latest.snapshot]
    is among the options and among the words handed to rsync. *)
Theorem sync_command_target (env : Env) (C : Type) (source dest : string)
    (debug : bool) (compress : C) (exclude : option (list string)) :
  exists user host root c,
    _parse_rsync_arg (expanduser env) (abspath env) dest = Ok (user, host, root) /\
    (host = None <-> _is_remote dest = false) /\
    build_commands env source dest debug compress exclude = Ok c /\
    the_rsync_cmd c
    = "rsync " ++ Py.join " " (rsync_options env debug exclude) ++ " "
      ++ with_trailing_sep source ++ " "
      ++ remote_prefix user host ++ root ++ "/incomplete.snapshot" /\
    In "--link-dest=../latest.snapshot" (rsync_options env debug exclude) /\
    In "--link-dest=../latest.snapshot" (Py.split_ws (the_rsync_cmd c)).
Proof.
  destruct (build_commands_ok env source dest debug compress exclude)
    as (user & host & root & Hparse & Hhost & Hbuild).
  exists user, host, root. eexists.
  split; [exact Hparse |]. split; [exact Hhost |]. split; [exact Hbuild |].
  cbn [the_rsync_cmd].
  assert (Hin : In "--link-dest=../latest.snapshot" (rsync_options env debug exclude)).
  { apply fixed_option_in_options. unfold fixed_options. simpl. tauto. }
  split; [apply rsync_cmd_shape |]. split; [exact Hin |].
  apply option_in_rsync_cmd; [exact Hin | reflexivity].
Qed.

(** C10. The [compress] argument changes nothing: whatever is passed for
    it, the same commands are built and the same run follows; and
    [--compress] is always among the words handed to rsync. *)
Theorem compress_ignored (env : Env) (C1 C2 : Type) (source dest : string)
    (debug : bool) (compress1 : C1) (compress2 : C2)
    (exclude : option (list string)) :
  build_commands env source dest debug compress1 exclude
  = build_commands env source dest debug compress2 exclude /\
  (forall tr,
     snapshot env source dest debug compress1 exclude tr
     = snapshot env source dest debug compress2 exclude tr) /\
  exists c,
    build_commands env source dest debug compress1 exclude = Ok c /\
    In "--compress" (rsync_options env debug exclude) /\
    In "--compress" (Py.split_ws (the_rsync_cmd c)).
Proof.
  split; [reflexivity |]. split; [reflexivity |].
  destruct (build_commands_ok env source dest debug compress1 exclude)
    as (user & host & root & _ & _ & Hbuild).
  eexists. split; [exact Hbuild |]. cbn [the_rsync_cmd].
  assert (Hin : In "--compress" (rsync_options env debug exclude)).
  { apply fixed_option_in_options. unfold fixed_options. simpl. tauto. }
  split; [exact Hin |].
  apply option_in_rsync_cmd; [exact Hin | reflexivity].
Qed.

(** C7. The parser classifies an argument as remote, that is, returns a
    host for it, exactly when a colon comes with no slash before it; this is
    also what [_is_remote] answers.  An argument classified as local, even
    one with a colon further on such as [/tmp/a:b], parses to no user, no
    host, and the argument run through [os.path.expanduser] and then
    [os.path.abspath]. *)
Theorem parse_classifies (expanduser abspath : string -> string) :
  (forall arg,
     (_is_remote arg = true <->
      exists pre post, arg = pre ++ ":" ++ post /\ Py.contains "/" pre = false) /\
     (_is_remote arg = false ->
      _parse_rsync_arg expanduser abspath arg
      = Ok (None, None, abspath (expanduser arg))) /\
     (exists user host path,
        _parse_rsync_arg expanduser abspath arg = Ok (user, host, path) /\
        ((exists h, host = Some h) <->
         exists pre post,
           arg = pre ++ ":" ++ post /\ Py.contains "/" pre = false) /\
        (host = None -> user = None /\ path = abspath (expanduser arg)))) /\
  _is_remote "/tmp/a:b" = false /\
  (exists user path,
     _parse_rsync_arg expanduser abspath "host:/tmp/a" = Ok (user, Some "host", path)) /\
  _parse_rsync_arg expanduser abspath "/tmp/a:b"
  = Ok (None, None, abspath (expanduser "/tmp/a:b")).
Proof.
  split; [| split; [reflexivity | split; [do 2 eexists; reflexivity | reflexivity]]].
  intros arg. split; [apply is_remote_iff |]. split.
  - intros R. unfold _parse_rsync_arg. now rewrite R.
  - destruct (parse_total expanduser abspath arg)
      as (user & host & path & Hparse & Hhost).
    exists user, host, path. split; [exact Hparse |]. split.
    + rewrite <- is_remote_iff. split.
      * intros (h & ->). destruct (_is_remote arg) eqn:R; [reflexivity |].
        discriminate (proj2 Hhost eq_refl).
      * intros R. destruct host as [h|]; [now exists h |].
        rewrite (proj1 Hhost eq_refl) in R. discriminate.
    + intros ->. pose proof (proj1 Hhost eq_refl) as R.
      unfold _parse_rsync_arg in Hparse. rewrite R in Hparse.
      injection Hparse as <- <-. now split.
Qed.

Lemma parse_classifies_witness :
  _is_remote "/tmp/a:b" = false /\
  _parse_rsync_arg Sample.expand_home Sample.from_cwd "/tmp/a:b"
  = Ok (None, None, "/tmp/a:b").
Proof.
  split; [reflexivity |].
  exact (proj1 (proj2 (proj1 (parse_classifies Sample.expand_home Sample.from_cwd)
                         "/tmp/a:b"))
           eq_refl).
Defined.

(** What the parser returns for a remote argument.  It is cut at its first
    colon into a head and the path.  With no [@] in the head there is no user and
    the host is the head.  Otherwise the user is what stands before the
    FIRST [@] of the head and the host is what stands after its LAST [@]; for
    a head with a single [@] these are its two sides, as in
    [user@host:/a/b]. *)
Theorem parse_remote_user_host (expanduser abspath : string -> string) :
  (forall arg,
     _is_remote arg = true ->
     exists head path user host,
       arg = head ++ ":" ++ path /\ Py.contains ":" head = false /\
       _parse_rsync_arg expanduser abspath arg = Ok (user, Some host, path) /\
       (Py.contains "@" head = false -> user = None /\ host = head) /\
       (forall u rest,
          head = u ++ "@" ++ rest -> Py.contains "@" u = false -> user = Some u) /\
       (forall rest h,
          head = rest ++ "@" ++ h -> Py.contains "@" h = false -> host = h)) /\
  _parse_rsync_arg expanduser abspath "user@host:/a/b"
  = Ok (Some "user", Some "host", "/a/b").
Proof.
  split; [| reflexivity].
  intros arg R. destruct (remote_cut arg R) as (head & path & Harg & Hhead & Hsplit).
  unfold _parse_rsync_arg. rewrite R, Hsplit.
  do 4 eexists. split; [exact Harg |]. split; [exact Hhead |].
  split; [reflexivity |]. repeat split.
  - now rewrite H.
  - now rewrite (split_without _ _ H).
  - intros u rest -> Hu. rewrite contains_app. simpl.
    rewrite Bool.orb_true_r. change (u ++ "@" ++ rest) with (u ++ String "@" rest).
    now rewrite (split_cut _ _ _ Hu).
  - intros rest h -> Hh. now apply last_split_cut.
Qed.

Lemma parse_remote_user_host_witness :
  _is_remote "seanh@mydomain.org:/path/to/backups" = true /\
  exists head path user host,
    "seanh@mydomain.org:/path/to/backups" = head ++ ":" ++ path /\
    Py.contains ":" head = false /\
    _parse_rsync_arg Sample.expand_home Sample.from_cwd
      "seanh@mydomain.org:/path/to/backups" = Ok (user, Some host, path) /\
    (Py.contains "@" head = false -> user = None /\ host = head) /\
    (forall u rest,
       head = u ++ "@" ++ rest -> Py.contains "@" u = false -> user = Some u) /\
    (forall rest h,
       head = rest ++ "@" ++ h -> Py.contains "@" h = false -> host = h).
Proof.
  split; [reflexivity |].
  exact (proj1 (parse_remote_user_host Sample.expand_home Sample.from_cwd)
           "seanh@mydomain.org:/path/to/backups" eq_refl).
Defined.

(** C6, at the destination [a@b@c:/p].  Cut at its last [@] the head
    [a@b@c] gives the user [a@b] and the host [c]; the parser takes the user
    from the first piece of the split at [@] and the host from the last, so it
    returns the user [a], drops [b], and the sync command and the remote
    shell are pointed at [a@c]. *)
Lemma parse_two_ats :
  _is_remote "a@b@c:/p" = true /\
  _parse_rsync_arg Sample.expand_home Sample.from_cwd "a@b@c:/p"
  = Ok (Some "a", Some "c", "/p") /\
  cut_at_last_at "a@b@c" "a@b" "c" /\
  ~ cut_at_last_at "a@b@c" "a" "c" /\
  exists c,
    build_commands (Sample.env false Sample.all_succeed)
      "/data" "a@b@c:/p" false true None = Ok c /\
    Py.last (Py.split_ws (the_rsync_cmd c)) = "a@c:/p/incomplete.snapshot" /\
    firstn 2 (Py.split_ws (the_mv_cmd c)) = ["ssh"; "a@c"].
Proof.
  split; [reflexivity |]. split; [reflexivity |]. split; [now split |].
  split; [intros [H _]; discriminate H |].
  eexists. repeat split.
Qed.

(** * Further properties *)

(** ** The source argument *)

Lemma endswith_app (s t : string) : Py.endswith (s ++ t) t = true.
Proof.
  induction s as [|a s IH].
  - destruct t; cbn [append Py.endswith]; now rewrite String.eqb_refl.
  - cbn [append Py.endswith]. fold Py.endswith.
    destruct (String.eqb (String a (s ++ t)) t); [reflexivity | exact IH].
Qed.

(** X1. [snapshot] gives rsync a source that ends with the separator: the
    source itself when it already ends with one, the source with one
    separator added otherwise; and calling it with the source so completed
    builds the same commands and makes the same run. *)
Theorem source_trailing_separator (env : Env) (C : Type) (source dest : string)
    (debug : bool) (compress : C) (exclude : option (list string)) :
  exists src,
    Py.endswith src os_sep = true /\
    (Py.endswith source os_sep = true -> src = source) /\
    (Py.endswith source os_sep = false -> src = source ++ os_sep) /\
    build_commands env source dest debug compress exclude
    = build_commands env src dest debug compress exclude /\
    (forall tr,
       snapshot env source dest debug compress exclude tr
       = snapshot env src dest debug compress exclude tr) /\
    exists user host root c,
      _parse_rsync_arg (expanduser env) (abspath env) dest = Ok (user, host, root) /\
      build_commands env source dest debug compress exclude = Ok c /\
      the_rsync_cmd c
      = "rsync " ++ Py.join " " (rsync_options env debug exclude) ++ " "
        ++ src ++ " " ++ remote_prefix user host ++ root ++ "/incomplete.snapshot".
Proof.
  exists (with_trailing_sep source).
  assert (Hends : Py.endswith (with_trailing_sep source) os_sep = true).
  { unfold with_trailing_sep. destruct (Py.endswith source os_sep) eqn:E;
      [exact E | apply endswith_app]. }
  assert (Hbuild :
    build_commands env source dest debug compress exclude
    = build_commands env (with_trailing_sep source) dest debug compress exclude).
  { unfold build_commands. rewrite Hends. cbn [negb].
    unfold with_trailing_sep. destruct (Py.endswith source os_sep); reflexivity. }
  split; [exact Hends |].
  split; [unfold with_trailing_sep; now intros -> |].
  split; [unfold with_trailing_sep; now intros -> |].
  split; [exact Hbuild |].
  split; [intros tr; unfold snapshot; now rewrite Hbuild |].
  destruct (build_commands_ok env source dest debug compress exclude)
    as (user & host & root & Hparse & _ & Hok).
  exists user, host, root. eexists.
  split; [exact Hparse |]. split; [exact Hok |].
  cbn [the_rsync_cmd]. apply rsync_cmd_shape.
Qed.

(** ** A sync command that cannot be started *)

(** X2. When the sync command cannot be started at all, [snapshot] stops
    there: the sync command is the only thing echoed and launched, and the
    exception is [NoSuchCommandError] with the sync command and the system's
    message when the errno is 2, the [OSError] itself otherwise. *)
Theorem sync_not_started_stops (env : Env) (C : Type) (source dest : string)
    (debug : bool) (compress : C) (exclude : option (list string))
    (tr : list event) (c : commands) (errno : Z) (strerror : string) :
  build_commands env source dest debug compress exclude = Ok c ->
  fate env tr (the_rsync_cmd c) = NotStarted errno strerror ->
  snapshot env source dest debug compress exclude tr
  = ((tr ++ [Echo (the_rsync_cmd c);
             Exec (Py.split_ws (the_rsync_cmd c)) (NotStarted errno strerror)])%list,
     Raise (if errno =? 2 then NoSuchCommandError (the_rsync_cmd c) strerror
            else OSError errno strerror)) /\
  launched (fst (snapshot env source dest debug compress exclude tr))
  = (launched tr ++ [Py.split_ws (the_rsync_cmd c)])%list.
Proof.
  intros Hbuild Hfate.
  destruct (built_runnable env _ _ _ _ _ _ Hbuild) as (H1 & H2 & H3 & H4).
  assert (Hrun :
    snapshot env source dest debug compress exclude tr
    = ((tr ++ [Echo (the_rsync_cmd c);
               Exec (Py.split_ws (the_rsync_cmd c)) (NotStarted errno strerror)])%list,
       Raise (if errno =? 2 then NoSuchCommandError (the_rsync_cmd c) strerror
              else OSError errno strerror))).
  { rewrite (snapshot_built env _ _ _ _ _ _ tr Hbuild). destruct debug.
    - rewrite (run_commands_trial env c tr H1). unfold after_run.
      rewrite Hfate. cbn [succeeded run_failure]. destruct (errno =? 2); reflexivity.
    - rewrite (run_commands_real env c tr H1 H2 H3 H4). unfold after_run.
      rewrite Hfate. cbn [succeeded negb run_failure].
      destruct (errno =? 2); reflexivity. }
  split; [exact Hrun |]. rewrite Hrun. cbn [fst]. now rewrite launched_app.
Qed.

Lemma sync_not_started_stops_witness :
  snapshot (Sample.env false (Sample.missing "rsync"))
    "/data" "/backup" false true None []
  = ([Echo "rsync --archive --partial --partial-dir=partially_transferred_files --one-file-system --delete --delete-excluded --itemize-changes --link-dest=../latest.snapshot --human-readable --quiet --compress --fuzzy /data/ /backup/incomplete.snapshot";
      Exec ["rsync"; "--archive"; "--partial";
            "--partial-dir=partially_transferred_files"; "--one-file-system";
            "--delete"; "--delete-excluded"; "--itemize-changes";
            "--link-dest=../latest.snapshot"; "--human-readable"; "--quiet";
            "--compress"; "--fuzzy"; "/data/"; "/backup/incomplete.snapshot"]
           (NotStarted 2 "No such file or directory")],
     Raise (NoSuchCommandError "rsync --archive --partial --partial-dir=partially_transferred_files --one-file-system --delete --delete-excluded --itemize-changes --link-dest=../latest.snapshot --human-readable --quiet --compress --fuzzy /data/ /backup/incomplete.snapshot" "No such file or directory")).
Proof.
  exact (proj1 (sync_not_started_stops
                  (Sample.env false (Sample.missing "rsync")) bool
                  "/data" "/backup" false true None [] _
                  2 "No such file or directory" eq_refl eq_refl)).
Defined.

(** ** Where the promotion commands run *)

(** X3. Of the commands [snapshot] builds, only the rename goes through
    ssh, and only for a remote destination: the first word of the rename is
    [ssh] for a remote destination and [mv] for a local one, while the
    removal and the link always start with [rm] and [ln], and the sync
    command with [rsync]. *)
Theorem promotion_first_words (env : Env) (C : Type) (source dest : string)
    (debug : bool) (compress : C) (exclude : option (list string)) :
  exists c,
    build_commands env source dest debug compress exclude = Ok c /\
    hd_error (Py.split_ws (the_rsync_cmd c)) = Some "rsync" /\
    hd_error (Py.split_ws (the_mv_cmd c))
    = Some (if _is_remote dest then "ssh" else "mv") /\
    hd_error (Py.split_ws (the_rm_cmd c)) = Some "rm" /\
    hd_error (Py.split_ws (the_ln_cmd c)) = Some "ln".
Proof.
  destruct (build_commands_ok env source dest debug compress exclude)
    as (user & host & root & _ & Hhost & Hbuild).
  eexists. split; [exact Hbuild |]. cbn [the_rsync_cmd the_mv_cmd the_rm_cmd the_ln_cmd].
  split; [now rewrite rsync_cmd_words |].
  split; [| split].
  - rewrite mv_cmd_shape. destruct host as [h|].
    + destruct (_is_remote dest); [| discriminate (proj2 Hhost eq_refl)].
      change ("ssh " ++ ?x) with ("ssh" ++ String " " x).
      rewrite words_after; reflexivity.
    + rewrite (proj1 Hhost eq_refl).
      change ("mv " ++ ?x) with ("mv" ++ String " " x).
      rewrite words_after; reflexivity.
  - unfold rm_cmd. change ("rm -f " ++ ?x) with ("rm" ++ String " " ("-f " ++ x)).
    rewrite words_after; reflexivity.
  - unfold ln_cmd. change ("ln -s " ++ ?x) with ("ln" ++ String " " ("-s " ++ x)).
    rewrite words_after; reflexivity.
Qed.

(** ** Commands with no word *)

Lemma split_ws_blank (s : string) : Py.split_ws s = [] <-> blank s = true.
Proof.
  induction s as [|a s IH]; [split; reflexivity |].
  destruct (Py.isspace a) eqn:E.
  - cbn [Py.split_ws blank]. rewrite E. exact IH.
  - split.
    + intros H. now destruct (split_ws_not_nil a s E).
    + cbn [blank]. rewrite E. discriminate.
Qed.

(** X4. [_run] on a command that is empty or all whitespace launches
    nothing and raises [IndexError], neither of its two documented
    exceptions; on any other command it launches exactly one process, with
    the whitespace-separated words of the command, and never raises
    [IndexError]. *)
Theorem run_blank_command (env : Env) (command : string) (tr : list event) :
  (blank command = true -> _run env command tr = (tr, Raise IndexError)) /\
  (blank command = false ->
   launched (fst (_run env command tr))
   = (launched tr ++ [Py.split_ws command])%list /\
   snd (_run env command tr) <> Raise IndexError).
Proof.
  split.
  - intros H. apply run_no_words. now apply split_ws_blank.
  - intros H.
    assert (Hwords : Py.split_ws command <> []).
    { intros W. apply split_ws_blank in W. congruence. }
    rewrite (run_outcome env command tr Hwords). cbv zeta. cbn [fst snd].
    split; [now rewrite launched_app |].
    destruct (popen env tr (Py.split_ws command)) as [out code | errno strerror];
      cbn [run_failure].
    + destruct (code =? 0); discriminate.
    + destruct (errno =? 2); discriminate.
Qed.

(** ** Every launch is echoed first *)

Lemma well_echoed_app_bounded (n : nat) :
  forall tr1 tr2,
    (length tr1 <= n)%nat -> well_echoed tr1 = true ->
    well_echoed (tr1 ++ tr2) = well_echoed tr2.
Proof.
  induction n as [|n IH]; intros tr1 tr2 Hlen Hwell.
  - destruct tr1; [reflexivity | simpl in Hlen; lia].
  - destruct tr1 as [|[line | argv o] tr1]; [reflexivity | | discriminate].
    destruct tr1 as [|[line' | argv o] tr1]; [discriminate | discriminate |].
    cbn [app well_echoed] in *.
    destruct (list_eq_dec string_dec argv (Py.split_ws line)); [| discriminate].
    apply IH; [simpl in Hlen; lia | exact Hwell].
Qed.

Lemma well_echoed_after_run (env : Env) (tr : list event) (command : string) :
  well_echoed tr = true -> well_echoed (after_run env tr command) = true.
Proof.
  intros H. unfold after_run.
  rewrite (well_echoed_app_bounded (length tr) tr _ (le_n _) H).
  cbn [well_echoed].
  destruct (list_eq_dec string_dec (Py.split_ws command) (Py.split_ws command));
    [reflexivity | contradiction].
Qed.

(** X5. [snapshot] adds to the trace nothing but echo-then-launch pairs:
    whatever the outcome of each process, every process launched has exactly
    the words of the line printed just before it, and nothing is printed
    without being launched.  The same holds of [main] for a command line
    that parses; for one that does not (an error, or a request for help, which
    prints the help text), [main] launches nothing. *)
Theorem snapshot_echoes_what_it_runs (env : Env) (tr : list event) :
  well_echoed tr = true ->
  (forall (C : Type) (source dest : string) (debug : bool) (compress : C)
          (exclude : option (list string)),
     well_echoed (fst (snapshot env source dest debug compress exclude tr)) = true) /\
  (forall argv parsed,
     snd (_parse_cli env argv tr) = Ok parsed ->
     well_echoed (fst (main env argv tr)) = true) /\
  (forall argv e,
     snd (_parse_cli env argv tr) = Raise e ->
     launched (fst (main env argv tr)) = launched tr).
Proof.
  intros Hwell.
  assert (Hsnap : forall (C : Type) (source dest : string) (debug : bool)
                         (compress : C) (exclude : option (list string)),
            well_echoed (fst (snapshot env source dest debug compress exclude tr))
            = true).
  { intros C source dest debug compress exclude.
    destruct (build_commands_ok env source dest debug compress exclude)
      as (user & host & root & _ & _ & Hbuild).
    match type of Hbuild with _ = Ok ?r => set (c := r) in * end.
    destruct (built_runnable env _ _ _ _ _ _ Hbuild) as (H1 & H2 & H3 & H4).
    rewrite (snapshot_built env _ _ _ _ _ _ tr Hbuild).
    pose proof (well_echoed_after_run env tr (the_rsync_cmd c) Hwell) as W1.
    destruct debug.
    - rewrite (run_commands_trial env c tr H1). exact W1.
    - rewrite (run_commands_real env c tr H1 H2 H3 H4).
      pose proof (well_echoed_after_run env _ (the_mv_cmd c) W1) as W2.
      pose proof (well_echoed_after_run env _ (the_rm_cmd c) W2) as W3.
      pose proof (well_echoed_after_run env _ (the_ln_cmd c) W3) as W4.
      repeat match goal with
             | |- context [if negb ?b then _ else _] => destruct b; cbn [negb fst]
             end; assumption. }
  split; [exact Hsnap |]. split.
  - intros argv [[[src dest] debug] exclude] P.
    rewrite (main_passes_exclude_as_compress env argv src dest debug exclude tr P).
    apply Hsnap.
  - intros argv e P. exact (proj1 (main_not_parsed env argv e tr P)).
Qed.

Lemma snapshot_echoes_what_it_runs_witness :
  well_echoed
    (fst (snapshot (Sample.env true (Sample.fails "rm" "rm: cannot remove" 1))
            "/data" "seanh@mydomain.org:/backups" false true (Some ["*.tmp"]) []))
  = true.
Proof.
  exact (proj1 (snapshot_echoes_what_it_runs
                  (Sample.env true (Sample.fails "rm" "rm: cannot remove" 1)) []
                  eq_refl)
           bool "/data" "seanh@mydomain.org:/backups" false true (Some ["*.tmp"])).
Defined.

(** ** Exclude patterns given to [snapshot] *)

Lemma has_space_app (s t : string) :
  has_space (s ++ t) = (has_space s || has_space t)%bool.
Proof.
  induction s as [|a s IH]; [reflexivity |].
  cbn [append has_space]. now rewrite IH, Bool.orb_assoc.
Qed.

(** A non-empty string with no whitespace is a single word. *)
Lemma split_ws_word (w : string) :
  has_space w = false -> w <> "" -> Py.split_ws w = [w].
Proof.
  induction w as [|a w IH]; [now intros _ [] |].
  cbn [has_space]. intros H _. apply Bool.orb_false_iff in H. destruct H as (Ha & Hw).
  cbn [Py.split_ws]. rewrite Ha.
  destruct w as [|b w]; [reflexivity |].
  cbn [has_space] in Hw. destruct (Py.isspace b) eqn:Eb; [discriminate |].
  fold Py.split_ws. rewrite IH; [reflexivity | | discriminate].
  cbn [has_space]. now rewrite Eb.
Qed.

(** X6. Called with a list of exclude patterns, [snapshot] builds the
    options it builds without them, followed by one [--exclude '<pattern>']
    per pattern, in the order of the list.  For a pattern with no whitespace
    rsync is handed the two words [--exclude] and ['<pattern>'], the quotes
    being part of the second word. *)
Theorem exclude_patterns_become_options (env : Env) (C : Type)
    (source dest : string) (debug : bool) (compress : C)
    (patterns : list string) :
  rsync_options env debug (Some patterns)
  = (rsync_options env debug None
     ++ map (fun pattern => ("--exclude '" ++ pattern ++ "'")%string) patterns)%list /\
  exists c,
    build_commands env source dest debug compress (Some patterns) = Ok c /\
    forall pattern,
      In pattern patterns -> has_space pattern = false ->
      exists before after,
        Py.split_ws (the_rsync_cmd c)
        = (before ++ ["--exclude"; ("'" ++ pattern ++ "'")%string] ++ after)%list.
Proof.
  split.
  - unfold rsync_options. rewrite app_nil_r, !app_assoc. reflexivity.
  - destruct (build_commands_ok env source dest debug compress (Some patterns))
      as (user & host & root & _ & _ & Hbuild).
    eexists. split; [exact Hbuild |]. cbn [the_rsync_cmd].
    intros pattern Hin Hspace.
    assert (Hopt : In ("--exclude '" ++ pattern ++ "'")
                     (rsync_options env debug (Some patterns))).
    { unfold rsync_options. do 3 (apply in_or_app; right).
      apply in_map_iff. now exists pattern. }
    apply in_split in Hopt. destruct Hopt as (l1 & l2 & Hopt).
    rewrite rsync_cmd_words, Hopt, flat_map_app. cbn [flat_map].
    change ("--exclude '" ++ pattern ++ "'")
      with ("--exclude" ++ String " " ("'" ++ pattern ++ "'")).
    rewrite words_after by reflexivity.
    rewrite (split_ws_word ("'" ++ pattern ++ "'")).
    + exists ("rsync" :: flat_map Py.split_ws l1).
      eexists. cbn [app]. rewrite <- !app_assoc. cbn [app]. reflexivity.
    + change ("'" ++ pattern ++ "'") with (String "'" (pattern ++ "'")).
      cbn [has_space]. rewrite has_space_app, Hspace. reflexivity.
    + discriminate.
Qed.

(** ** Destinations written as [[user@]host:path] *)

Lemma plain_parts (s : string) :
  plain s = true ->
  Py.contains "@" s = false /\ Py.contains ":" s = false /\ Py.contains "/" s = false.
Proof.
  unfold plain. intros H. apply Bool.negb_true_iff in H.
  apply Bool.orb_false_iff in H. destruct H as (H & H3).
  apply Bool.orb_false_iff in H. destruct H as (H1 & H2). now repeat split.
Qed.

(** X7. A destination written as [user@host:path] or [host:path], with a
    user and a host that hold no [@], [:] or [/], parses back to exactly that
    user, host and path (the path taken as it stands, whatever it holds), and
    the target of the sync command is the destination as it was given
    followed by [/incomplete.snapshot]. *)
Theorem parse_formatted_destination (env : Env) (user host path : string) :
  plain user = true -> plain host = true ->
  _parse_rsync_arg (expanduser env) (abspath env) (user ++ "@" ++ host ++ ":" ++ path)
  = Ok (Some user, Some host, path) /\
  _parse_rsync_arg (expanduser env) (abspath env) (host ++ ":" ++ path)
  = Ok (None, Some host, path) /\
  forall (C : Type) (source : string) (debug : bool) (compress : C)
         (exclude : option (list string)) (dest : string),
    dest = user ++ "@" ++ host ++ ":" ++ path \/ dest = host ++ ":" ++ path ->
    exists c,
      build_commands env source dest debug compress exclude = Ok c /\
      the_rsync_cmd c
      = "rsync " ++ Py.join " " (rsync_options env debug exclude) ++ " "
        ++ with_trailing_sep source ++ " " ++ dest ++ "/incomplete.snapshot".
Proof.
  intros Hu Hh.
  destruct (plain_parts user Hu) as (Hu1 & Hu2 & Hu3).
  destruct (plain_parts host Hh) as (Hh1 & Hh2 & Hh3).
  assert (Hlong :
    _parse_rsync_arg (expanduser env) (abspath env)
      (user ++ "@" ++ host ++ ":" ++ path) = Ok (Some user, Some host, path)).
  { set (head := user ++ String "@" host).
    assert (Harg : user ++ "@" ++ host ++ ":" ++ path = head ++ String ":" path).
    { unfold head. rewrite append_assoc. reflexivity. }
    assert (Hc : Py.contains ":" head = false).
    { unfold head. rewrite contains_app. cbn. now rewrite Hu2, Hh2. }
    assert (Hs : Py.contains "/" head = false).
    { unfold head. rewrite contains_app. cbn. now rewrite Hu3, Hh3. }
    assert (R : _is_remote (head ++ String ":" path) = true).
    { apply is_remote_iff. now exists head, path. }
    rewrite Harg. unfold _parse_rsync_arg. rewrite R, (split1_cut _ _ _ Hc).
    assert (Hat : Py.contains "@" head = true).
    { unfold head. rewrite contains_app. cbn. apply Bool.orb_true_r. }
    rewrite Hat. unfold head.
    rewrite (last_split_cut _ _ _ Hh1), (split_cut _ _ _ Hu1). reflexivity. }
  assert (Hshort :
    _parse_rsync_arg (expanduser env) (abspath env) (host ++ ":" ++ path)
    = Ok (None, Some host, path)).
  { assert (R : _is_remote (host ++ String ":" path) = true).
    { apply is_remote_iff. now exists host, path. }
    change (host ++ ":" ++ path) with (host ++ String ":" path).
    unfold _parse_rsync_arg. rewrite R, (split1_cut _ _ _ Hh2), Hh1.
    rewrite (split_without _ _ Hh1). reflexivity. }
  split; [exact Hlong |]. split; [exact Hshort |].
  intros C source debug compress exclude dest Hdest.
  destruct (build_commands_ok env source dest debug compress exclude)
    as (u & h & root & Hparse & _ & Hbuild).
  eexists. split; [exact Hbuild |]. cbn [the_rsync_cmd].
  rewrite rsync_cmd_shape. do 4 f_equal.
  destruct Hdest as [-> | ->].
  - rewrite Hlong in Hparse. injection Hparse as <- <- <-.
    cbn [remote_prefix]. rewrite !append_assoc. reflexivity.
  - rewrite Hshort in Hparse. injection Hparse as <- <- <-.
    cbn [remote_prefix]. rewrite !append_assoc. reflexivity.
Qed.

Lemma parse_formatted_destination_witness :
  _parse_rsync_arg Sample.expand_home Sample.from_cwd
    ("seanh" ++ "@" ++ "mydomain.org" ++ ":" ++ "~/backups/a:b")
  = Ok (Some "seanh", Some "mydomain.org", "~/backups/a:b").
Proof.
  exact (proj1 (parse_formatted_destination (Sample.env false Sample.all_succeed)
                  "seanh" "mydomain.org" "~/backups/a:b" eq_refl eq_refl)).
Defined.

(** * The command line *)

Section CommandLineFacts.

Variable env : Env.

(** An argument that does not start with a dash is kept as a positional
    argument. *)
Lemma process_args_positional (arg : string) (rest : list string)
    (values : Values) (largs : list string) :
  positional arg = true ->
  process_args env (arg :: rest) values largs
  = process_args env rest values (largs ++ [arg]).
Proof.
  intros H. destruct arg as [|a arg]; [reflexivity |].
  destruct a as [b0 b1 b2 b3 b4 b5 b6 b7].
  destruct b0, b1, b2, b3, b4, b5, b6, b7; try reflexivity.
  cbv in H. destruct arg; discriminate H.
Qed.

Lemma process_args_exclude (pattern : string) (rest : list string)
    (values : Values) (largs : list string) :
  process_args env ("--exclude" :: pattern :: rest) values largs
  = process_args env rest (append_exclude pattern values) largs.
Proof. reflexivity. Qed.

Lemma process_args_debug_flag (flag : string) (rest : list string)
    (values : Values) (largs : list string) (tr : list event) :
  In flag debug_flags ->
  process_args env (flag :: rest) values largs tr
  = process_args env rest (store_debug values) largs tr.
Proof.
  intros H. unfold debug_flags in H. simpl in H.
  repeat (destruct H as [<- | H]; [reflexivity |]). contradiction.
Qed.

Lemma process_args_all_positional (args : list string) :
  forallb positional args = true ->
  forall values largs tr,
    process_args env args values largs tr
    = (tr, Ok (values, (largs ++ args)%list)).
Proof.
  induction args as [|arg args IH]; intros H values largs tr.
  - cbn. now rewrite app_nil_r.
  - cbn [forallb] in H. apply Bool.andb_true_iff in H. destruct H as (Ha & Hrest).
    rewrite (process_args_positional _ _ _ _ Ha), (IH Hrest).
    now rewrite <- app_assoc.
Qed.

Lemma process_args_excludes (patterns rest : list string) :
  forall values largs,
    process_args env (exclude_args patterns ++ rest) values largs
    = process_args env rest
        (fold_left (fun v pattern => append_exclude pattern v) patterns values)
        largs.
Proof.
  induction patterns as [|p patterns IH]; intros values largs; [reflexivity |].
  cbn [exclude_args flat_map app fold_left].
  rewrite process_args_exclude. apply IH.
Qed.

Lemma collected_excludes (patterns : list string) :
  forall values,
    debug_value (fold_left (fun v pattern => append_exclude pattern v) patterns values)
    = debug_value values /\
    exclude_value (fold_left (fun v pattern => append_exclude pattern v) patterns values)
    = match patterns with
      | [] => exclude_value values
      | _ :: _ =>
          Some (match exclude_value values with
                | Some before => before
                | None => []
                end ++ patterns)%list
      end.
Proof.
  induction patterns as [|p patterns IH]; intros values; [now split |].
  cbn [fold_left]. destruct (IH (append_exclude p values)) as (Hd & He).
  split; [now rewrite Hd |]. rewrite He. cbn [append_exclude exclude_value].
  destruct patterns as [|q patterns]; [reflexivity |].
  now rewrite <- app_assoc.
Qed.

End CommandLineFacts.

(** X8. Given nothing but arguments that do not start with a dash,
    [_parse_cli] prints nothing and returns them as source and destination,
    with the trial flag off and no exclude pattern, when there are exactly
    two; with any other number, none included, it raises
    [CommandLineArgumentsError] carrying the usage line. *)
Theorem parse_cli_two_positionals (env : Env) (args : list string)
    (tr : list event) :
  forallb positional args = true ->
  _parse_cli env args tr
  = (tr,
     match args with
     | [src; dest] => Ok (src, dest, false, None)
     | _ => Raise (CommandLineArgumentsError (get_usage env))
     end).
Proof.
  intros H. unfold _parse_cli, parse_args, bind.
  rewrite (process_args_all_positional env args H). cbn [app].
  destruct args as [|src [|dest [|third args]]]; reflexivity.
Qed.

Lemma parse_cli_two_positionals_witness :
  _parse_cli (Sample.env false Sample.all_succeed) ["/data"] []
  = ([],
     Raise (CommandLineArgumentsError
              ("Usage: snapshotter.py [options] SRC DEST" ++ String (ascii_of_nat 10) ""))).
Proof.
  exact (parse_cli_two_positionals (Sample.env false Sample.all_succeed) ["/data"] []
           eq_refl).
Defined.

(** X9. Every [--exclude PATTERN] pair of the command line is collected by
    [_parse_cli], in the order given and whatever the text of the pattern
    (a pattern is taken as it stands even when it starts with a dash); the
    pairs may stand before or after the two positional arguments.  With no
    pair the exclude value is [None], not an empty list.  Nothing is
    printed. *)
Theorem parse_cli_collects_excludes (env : Env) (patterns : list string)
    (src dest : string) (tr : list event) :
  positional src = true -> positional dest = true ->
  _parse_cli env (exclude_args patterns ++ [src; dest]) tr
  = (tr, Ok (src, dest, false,
             match patterns with [] => None | _ :: _ => Some patterns end)) /\
  _parse_cli env ([src; dest] ++ exclude_args patterns) tr
  = (tr, Ok (src, dest, false,
             match patterns with [] => None | _ :: _ => Some patterns end)).
Proof.
  intros Hsrc Hdest. unfold _parse_cli, parse_args, bind. split.
  - rewrite process_args_excludes.
    rewrite (process_args_positional _ _ _ _ _ Hsrc),
      (process_args_positional _ _ _ _ _ Hdest).
    cbn [process_args app ret].
    destruct (collected_excludes patterns
                {| debug_value := false; exclude_value := None |}) as (-> & ->).
    destruct patterns; reflexivity.
  - cbn [app].
    rewrite (process_args_positional _ _ _ _ _ Hsrc),
      (process_args_positional _ _ _ _ _ Hdest).
    rewrite <- (app_nil_r (exclude_args patterns)), process_args_excludes.
    cbn [process_args app ret].
    destruct (collected_excludes patterns
                {| debug_value := false; exclude_value := None |}) as (-> & ->).
    destruct patterns; reflexivity.
Qed.

Lemma parse_cli_collects_excludes_witness :
  _parse_cli (Sample.env false Sample.all_succeed)
    ["--exclude"; ".git/*"; "--exclude"; "-n"; "/data"; "/backup"] []
  = ([], Ok ("/data", "/backup", false, Some [".git/*"; "-n"])).
Proof.
  exact (proj1 (parse_cli_collects_excludes (Sample.env false Sample.all_succeed)
                  [".git/*"; "-n"] "/data" "/backup" [] eq_refl eq_refl)).
Defined.

(** X10. Each of [-d], [--debug], [-n] and [--dry-run] turns the trial flag
    on, wherever it stands among the two positional arguments, and prints
    nothing. *)
Theorem parse_cli_debug_flags (env : Env) (flag src dest : string)
    (tr : list event) :
  In flag debug_flags -> positional src = true -> positional dest = true ->
  _parse_cli env [flag; src; dest] tr = (tr, Ok (src, dest, true, None)) /\
  _parse_cli env [src; flag; dest] tr = (tr, Ok (src, dest, true, None)) /\
  _parse_cli env [src; dest; flag] tr = (tr, Ok (src, dest, true, None)).
Proof.
  intros Hflag Hsrc Hdest. unfold _parse_cli, parse_args, bind.
  repeat split;
    repeat first
      [ rewrite (process_args_debug_flag env _ _ _ _ _ Hflag)
      | rewrite (process_args_positional env src _ _ _ Hsrc)
      | rewrite (process_args_positional env dest _ _ _ Hdest) ];
    reflexivity.
Qed.

Lemma parse_cli_debug_flags_witness :
  _parse_cli (Sample.env false Sample.all_succeed)
    ["/data"; "--dry-run"; "/backup"] []
  = ([], Ok ("/data", "/backup", true, None)).
Proof.
  exact (proj1 (proj2 (parse_cli_debug_flags (Sample.env false Sample.all_succeed)
                         "--dry-run" "/data" "/backup" []
                         (or_intror (or_intror (or_intror (or_introl eq_refl))))
                         eq_refl eq_refl))).
Defined.

(** * What [snapshot] and [main] can raise *)

Section RaiseFacts.

(** The sync command did not succeed: [snapshot] stops with its failure. *)
Lemma snapshot_sync_failed (env : Env) {C : Type} (source dest : string)
    (debug : bool) (compress : C) (exclude : option (list string))
    (tr : list event) (c : commands) :
  build_commands env source dest debug compress exclude = Ok c ->
  succeeded (fate env tr (the_rsync_cmd c)) = false ->
  snapshot env source dest debug compress exclude tr
  = (after_run env tr (the_rsync_cmd c),
     Raise (run_failure (the_rsync_cmd c) (fate env tr (the_rsync_cmd c)))).
Proof.
  intros Hbuild Hfail.
  destruct (built_runnable env _ _ _ _ _ _ Hbuild) as (H1 & H2 & H3 & H4).
  rewrite (snapshot_built env _ _ _ _ _ _ tr Hbuild). destruct debug.
  - now rewrite (run_commands_trial env c tr H1), Hfail.
  - now rewrite (run_commands_real env c tr H1 H2 H3 H4), Hfail.
Qed.

(** Whatever [snapshot] raises is the failure of a command that did not
    succeed. *)
Lemma snapshot_raises (env : Env) {C : Type} (source dest : string)
    (debug : bool) (compress : C) (exclude : option (list string))
    (tr : list event) (e : exn) :
  snd (snapshot env source dest debug compress exclude tr) = Raise e ->
  exists command o, succeeded o = false /\ e = run_failure command o.
Proof.
  destruct (build_commands_ok env source dest debug compress exclude)
    as (user & host & root & _ & _ & Hbuild).
  match type of Hbuild with _ = Ok ?r => set (c := r) in * end.
  destruct (built_runnable env _ _ _ _ _ _ Hbuild) as (H1 & H2 & H3 & H4).
  rewrite (snapshot_built env _ _ _ _ _ _ tr Hbuild). destruct debug.
  - rewrite (run_commands_trial env c tr H1). cbn [snd].
    destruct (succeeded (fate env tr (the_rsync_cmd c))) eqn:S; [discriminate |].
    intros H. injection H as <-. eauto.
  - rewrite (run_commands_real env c tr H1 H2 H3 H4).
    repeat match goal with
           | |- context [if negb (succeeded ?o) then _ else _] =>
               let S := fresh "S" in
               destruct (succeeded o) eqn:S; cbn [negb snd];
               [| intros H; injection H as <-; eauto]
           end.
    discriminate.
Qed.

Lemma run_failure_kinds (command : string) (o : proc_outcome) :
  succeeded o = false ->
  match run_failure command o with
  | CalledProcessError c _ code => c = command /\ code <> 0
  | NoSuchCommandError c _ => c = command
  | OSError errno _ => errno <> 2
  | _ => False
  end.
Proof.
  destruct o as [output code | errno strerror]; cbn [succeeded run_failure].
  - intros H. apply Z.eqb_neq in H. now split.
  - intros _. destruct (Z.eqb_spec errno 2); [reflexivity | assumption].
Qed.

End RaiseFacts.

(** X12. [main] never lets [CalledProcessError], [NoSuchCommandError] or
    [CommandLineArgumentsError] out: whatever the command line and whatever
    becomes of the processes, it returns, or exits through [SystemExit], or
    lets through an [OSError] whose errno is not 2. *)
Theorem main_exits_cleanly (env : Env) (argv : list string) (tr : list event) :
  match snd (main env argv tr) with
  | Ok _ => True
  | Raise (SystemExit _) => True
  | Raise (OSError errno _) => errno <> 2
  | Raise _ => False
  end.
Proof.
  destruct (snd (_parse_cli env argv tr))
    as [[[[src dest] debug] exclude] | e] eqn:P.
  - rewrite (main_parsed env argv src dest debug exclude tr P). unfold try_except.
    destruct (snapshot env src dest debug exclude None tr) as [tr' [[] | e]] eqn:R;
      [exact I |].
    assert (R' : snd (snapshot env src dest debug exclude None tr) = Raise e)
      by now rewrite R.
    destruct (snapshot_raises env _ _ _ _ _ _ _ R') as (command & o & Hfail & ->).
    pose proof (run_failure_kinds command o Hfail) as K.
    destruct (run_failure command o); try exact K; exact I.
  - destruct (main_not_parsed env argv e tr P) as (_ & arg & ->). exact I.
Qed.

(** X13. When [main] has parsed its command line and the sync command
    fails, [main] exits with a message: the merged output of rsync, a space
    and its exit status when rsync exited non-zero; the system's message when
    the rsync executable was not found.  Nothing but the sync command has
    been launched. *)
Theorem main_reports_sync_failure (env : Env) (argv : list string)
    (src dest : string) (debug : bool) (exclude : option (list string))
    (tr : list event) (c : commands) :
  snd (_parse_cli env argv tr) = Ok (src, dest, debug, exclude) ->
  build_commands env src dest debug exclude None = Ok c ->
  (forall output code,
     fate env tr (the_rsync_cmd c) = Exited output code -> code <> 0 ->
     main env argv tr
     = ((tr ++ [Echo (the_rsync_cmd c);
                Exec (Py.split_ws (the_rsync_cmd c)) (Exited output code)])%list,
        Raise (SystemExit (ExitMessage (output ++ " " ++ Py.str code))))) /\
  (forall strerror,
     fate env tr (the_rsync_cmd c) = NotStarted 2 strerror ->
     main env argv tr
     = ((tr ++ [Echo (the_rsync_cmd c);
                Exec (Py.split_ws (the_rsync_cmd c)) (NotStarted 2 strerror)])%list,
        Raise (SystemExit (ExitMessage strerror)))).
Proof.
  intros P Hbuild. split.
  - intros output code Hfate Hcode.
    assert (Hfail : succeeded (fate env tr (the_rsync_cmd c)) = false).
    { rewrite Hfate. cbn. now apply Z.eqb_neq. }
    rewrite (main_parsed env argv src dest debug exclude tr P). unfold try_except.
    rewrite (snapshot_sync_failed env _ _ _ _ _ tr c Hbuild Hfail).
    unfold after_run. rewrite Hfate. reflexivity.
  - intros strerror Hfate.
    assert (Hfail : succeeded (fate env tr (the_rsync_cmd c)) = false)
      by now rewrite Hfate.
    rewrite (main_parsed env argv src dest debug exclude tr P). unfold try_except.
    rewrite (snapshot_sync_failed env _ _ _ _ _ tr c Hbuild Hfail).
    unfold after_run. rewrite Hfate. reflexivity.
Qed.

Lemma main_reports_sync_failure_witness :
  snd (main (Sample.env false (Sample.fails "rsync" "rsync error" 23))
         ["/data"; "~/backup"] [])
  = Raise (SystemExit (ExitMessage "rsync error 23")).
Proof.
  exact (f_equal snd
           (proj1 (main_reports_sync_failure
                     (Sample.env false (Sample.fails "rsync" "rsync error" 23))
                     ["/data"; "~/backup"] "/data" "~/backup" false None [] _
                     eq_refl eq_refl)
              "rsync error" 23 eq_refl ltac:(discriminate))).
Defined.

(** X14. A command line that sets the trial flag makes [main] launch the
    sync command and nothing else, with [--dry-run] among its words,
    whatever becomes of it. *)
Theorem main_trial_run (env : Env) (argv : list string) (src dest : string)
    (exclude : option (list string)) (tr : list event) :
  snd (_parse_cli env argv tr) = Ok (src, dest, true, exclude) ->
  exists c,
    build_commands env src dest true exclude None = Ok c /\
    In "--dry-run" (Py.split_ws (the_rsync_cmd c)) /\
    fst (main env argv tr)
    = (tr ++ [Echo (the_rsync_cmd c);
              Exec (Py.split_ws (the_rsync_cmd c))
                (fate env tr (the_rsync_cmd c))])%list.
Proof.
  intros P.
  destruct (build_commands_ok env src dest true exclude None)
    as (user & host & root & _ & _ & Hbuild).
  eexists. split; [exact Hbuild |]. split.
  - cbn [the_rsync_cmd]. apply option_in_rsync_cmd; [| reflexivity].
    unfold rsync_options. apply in_or_app. right. apply in_or_app. right. now left.
  - rewrite (main_passes_exclude_as_compress env argv src dest true exclude tr P).
    rewrite (snapshot_built env _ _ _ _ _ _ tr Hbuild).
    rewrite run_commands_trial; [reflexivity | apply rsync_cmd_runnable].
Qed.

Lemma main_trial_run_witness :
  launched (fst (main (Sample.env false Sample.all_succeed)
                   ["-n"; "/data"; "/backup"] []))
  = [ ["rsync"; "--archive"; "--partial";
       "--partial-dir=partially_transferred_files"; "--one-file-system";
       "--delete"; "--delete-excluded"; "--itemize-changes";
       "--link-dest=../latest.snapshot"; "--human-readable"; "--quiet";
       "--compress"; "--fuzzy"; "--dry-run"; "/data/";
       "/backup/incomplete.snapshot"] ].
Proof.
  destruct (main_trial_run (Sample.env false Sample.all_succeed)
              ["-n"; "/data"; "/backup"] "/data" "/backup" None [] eq_refl)
    as (c & Hbuild & _ & Hrun).
  rewrite Hrun. injection Hbuild as <-. reflexivity.
Defined.

(** * The snapshot label *)

Section LabelFacts.

Lemma below_in_seq (n bound : nat) : (n <= bound)%nat -> In n (seq 0 (S bound)).
Proof.
  intros H. apply in_seq. split; [apply Nat.le_0_l |].
  rewrite Nat.add_0_l. now apply Nat.lt_succ_r.
Qed.

(** A field below 100 is written with two digits, and read back as
    itself. *)
Lemma pad2_field (n : nat) :
  (n <= 99)%nat ->
  digits 2 (Py.pad 2 n) = true /\ decimal_value (Py.pad 2 n) = n.
Proof.
  intros H.
  assert (Hall : forallb (fun k => (digits 2 (Py.pad 2 k)
                                    && Nat.eqb (decimal_value (Py.pad 2 k)) k)%bool)
                   (seq 0 (S 99)) = true) by (vm_compute; reflexivity).
  pose proof (proj1 (forallb_forall _ _) Hall n (below_in_seq n 99 H)) as K.
  cbv beta in K. apply Bool.andb_true_iff in K. destruct K as (K1 & K2).
  split; [exact K1 | now apply Nat.eqb_eq].
Qed.

(** A year up to 9999 is written with four digits, and read back as
    itself. *)
Lemma pad4_field (n : nat) :
  (n <= 9999)%nat ->
  digits 4 (Py.pad 4 n) = true /\ decimal_value (Py.pad 4 n) = n.
Proof.
  intros H.
  assert (Hall : forallb (fun k => (digits 4 (Py.pad 4 k)
                                    && Nat.eqb (decimal_value (Py.pad 4 k)) k)%bool)
                   (seq 0 (S 9999)) = true) by (vm_compute; reflexivity).
  pose proof (proj1 (forallb_forall _ _) Hall n (below_in_seq n 9999 H)) as K.
  cbv beta in K. apply Bool.andb_true_iff in K. destruct K as (K1 & K2).
  split; [exact K1 | now apply Nat.eqb_eq].
Qed.

Lemma valid_clock_fields (d : datetime) :
  valid_clock d = true ->
  (year d <= 9999 /\ month d <= 99 /\ day d <= 99 /\ hour d <= 99
   /\ minute d <= 99 /\ second d <= 99)%nat.
Proof.
  unfold valid_clock. intros H.
  repeat (apply Bool.andb_true_iff in H; destruct H as (H & ?)).
  repeat match goal with
         | K : (_ <=? _)%nat = true |- _ => apply Nat.leb_le in K
         end.
  repeat split; try assumption;
    eapply Nat.le_trans; try eassumption;
    apply Nat.leb_le; vm_compute; reflexivity.
Qed.

Lemma isdigit_not_space (a : ascii) : isdigit a = true -> Py.isspace a = false.
Proof.
  destruct a as [[] [] [] [] [] [] [] []]; intros H; vm_compute in H |- *;
    congruence.
Qed.

Lemma isdigit_not_slash (a : ascii) : isdigit a = true -> Ascii.eqb a "/" = false.
Proof.
  destruct a as [[] [] [] [] [] [] [] []]; intros H; vm_compute in H |- *;
    congruence.
Qed.

Lemma digits_length (n : nat) (s : string) :
  digits n s = true -> String.length s = n.
Proof.
  revert s. induction n as [|n IH]; intros [|a s] H; try discriminate; [reflexivity |].
  cbn [digits] in H. apply Bool.andb_true_iff in H. cbn [String.length].
  now rewrite (IH s (proj2 H)).
Qed.

Lemma digits_no_space (n : nat) (s : string) :
  digits n s = true -> has_space s = false /\ Py.contains "/" s = false.
Proof.
  revert s. induction n as [|n IH]; intros [|a s] H; try discriminate;
    [now split |].
  cbn [digits] in H. apply Bool.andb_true_iff in H. destruct H as (Ha & Hs).
  destruct (IH s Hs) as (I1 & I2). cbn [has_space Py.contains].
  now rewrite (isdigit_not_space a Ha), (isdigit_not_slash a Ha), I1, I2.
Qed.

(** Two strings that start with as many digits are equal piece by piece. *)
Lemma digits_prefix_eq (n : nat) (s1 s2 t1 t2 : string) :
  digits n s1 = true -> digits n s2 = true ->
  s1 ++ t1 = s2 ++ t2 -> s1 = s2 /\ t1 = t2.
Proof.
  revert s1 s2. induction n as [|n IH]; intros [|a1 s1] [|a2 s2] H1 H2 E;
    try discriminate.
  - now split.
  - cbn [digits] in H1, H2.
    apply Bool.andb_true_iff in H1. apply Bool.andb_true_iff in H2.
    cbn [append] in E. injection E as -> E.
    destruct (IH s1 s2 (proj2 H1) (proj2 H2) E) as (-> & ->). now split.
Qed.

Lemma length_app (s t : string) :
  String.length (s ++ t) = (String.length s + String.length t)%nat.
Proof. induction s as [|a s IH]; [reflexivity |]. cbn. now rewrite IH. Qed.

End LabelFacts.

(** X15. For a clock [strftime] accepts, the snapshot label is
    [YYYY-MM-DDTHH_MM_SS]: four digits, then five two-digit fields, 19
    characters in all, with no whitespace and no slash in it; each field
    read as a number is the matching field of the clock. *)
Theorem datetime_label_shape (env : Env) :
  valid_clock (clock env) = true ->
  exists Y M D h m s,
    _datetime env = Y ++ "-" ++ M ++ "-" ++ D ++ "T" ++ h ++ "_" ++ m ++ "_" ++ s /\
    digits 4 Y = true /\ digits 2 M = true /\ digits 2 D = true /\
    digits 2 h = true /\ digits 2 m = true /\ digits 2 s = true /\
    decimal_value Y = year (clock env) /\ decimal_value M = month (clock env) /\
    decimal_value D = day (clock env) /\ decimal_value h = hour (clock env) /\
    decimal_value m = minute (clock env) /\ decimal_value s = second (clock env) /\
    String.length (_datetime env) = 19%nat /\
    has_space (_datetime env) = false /\
    Py.contains "/" (_datetime env) = false.
Proof.
  intros Hvalid.
  destruct (valid_clock_fields _ Hvalid) as (Hy & Hmo & Hd & Hh & Hmi & Hs).
  destruct (pad4_field _ Hy) as (Y1 & Y2). destruct (pad2_field _ Hmo) as (M1 & M2).
  destruct (pad2_field _ Hd) as (D1 & D2). destruct (pad2_field _ Hh) as (h1 & h2).
  destruct (pad2_field _ Hmi) as (m1 & m2). destruct (pad2_field _ Hs) as (s1 & s2).
  exists (Py.pad 4 (year (clock env))), (Py.pad 2 (month (clock env))),
    (Py.pad 2 (day (clock env))), (Py.pad 2 (hour (clock env))),
    (Py.pad 2 (minute (clock env))), (Py.pad 2 (second (clock env))).
  unfold _datetime.
  repeat (split; [first [reflexivity | assumption] |]).
  split; [| split].
  - rewrite !length_app.
    rewrite (digits_length _ _ Y1), (digits_length _ _ M1), (digits_length _ _ D1),
      (digits_length _ _ h1), (digits_length _ _ m1), (digits_length _ _ s1).
    reflexivity.
  - rewrite !has_space_app.
    rewrite (proj1 (digits_no_space _ _ Y1)), (proj1 (digits_no_space _ _ M1)),
      (proj1 (digits_no_space _ _ D1)), (proj1 (digits_no_space _ _ h1)),
      (proj1 (digits_no_space _ _ m1)), (proj1 (digits_no_space _ _ s1)).
    reflexivity.
  - rewrite !contains_app.
    rewrite (proj2 (digits_no_space _ _ Y1)), (proj2 (digits_no_space _ _ M1)),
      (proj2 (digits_no_space _ _ D1)), (proj2 (digits_no_space _ _ h1)),
      (proj2 (digits_no_space _ _ m1)), (proj2 (digits_no_space _ _ s1)).
    reflexivity.
Qed.

Lemma datetime_label_shape_witness :
  _datetime (Sample.env false Sample.all_succeed) = "2026-11-03T09_05_00" /\
  String.length (_datetime (Sample.env false Sample.all_succeed)) = 19%nat.
Proof.
  destruct (datetime_label_shape (Sample.env false Sample.all_succeed) eq_refl)
    as (Y & M & D & h & m & s & _ & _ & _ & _ & _ & _ & _ & _ & _ & _ & _ & _ & _
        & Hlen & _).
  split; [reflexivity | exact Hlen].
Defined.

(** X16. Two clocks [strftime] accepts that give the same label are the
    same clock: runs started at different seconds get different snapshot
    names. *)
Theorem datetime_label_injective (env1 env2 : Env) :
  valid_clock (clock env1) = true -> valid_clock (clock env2) = true ->
  _datetime env1 = _datetime env2 -> clock env1 = clock env2.
Proof.
  intros V1 V2 E.
  destruct (valid_clock_fields _ V1) as (Hy1 & Hmo1 & Hd1 & Hh1 & Hmi1 & Hs1).
  destruct (valid_clock_fields _ V2) as (Hy2 & Hmo2 & Hd2 & Hh2 & Hmi2 & Hs2).
  unfold _datetime in E. cbv zeta in E.
  destruct (digits_prefix_eq 4 _ _ _ _ (proj1 (pad4_field _ Hy1))
              (proj1 (pad4_field _ Hy2)) E) as (EY & E1).
  cbn [append] in E1. injection E1 as E1.
  destruct (digits_prefix_eq 2 _ _ _ _ (proj1 (pad2_field _ Hmo1))
              (proj1 (pad2_field _ Hmo2)) E1) as (EM & E2).
  cbn [append] in E2. injection E2 as E2.
  destruct (digits_prefix_eq 2 _ _ _ _ (proj1 (pad2_field _ Hd1))
              (proj1 (pad2_field _ Hd2)) E2) as (ED & E3).
  cbn [append] in E3. injection E3 as E3.
  destruct (digits_prefix_eq 2 _ _ _ _ (proj1 (pad2_field _ Hh1))
              (proj1 (pad2_field _ Hh2)) E3) as (Eh & E4).
  cbn [append] in E4. injection E4 as E4.
  destruct (digits_prefix_eq 2 _ _ _ _ (proj1 (pad2_field _ Hmi1))
              (proj1 (pad2_field _ Hmi2)) E4) as (Em & E5).
  cbn [append] in E5. injection E5 as Es.
  apply (f_equal decimal_value) in EY, EM, ED, Eh, Em, Es.
  rewrite (proj2 (pad4_field _ Hy1)), (proj2 (pad4_field _ Hy2)) in EY.
  rewrite (proj2 (pad2_field _ Hmo1)), (proj2 (pad2_field _ Hmo2)) in EM.
  rewrite (proj2 (pad2_field _ Hd1)), (proj2 (pad2_field _ Hd2)) in ED.
  rewrite (proj2 (pad2_field _ Hh1)), (proj2 (pad2_field _ Hh2)) in Eh.
  rewrite (proj2 (pad2_field _ Hmi1)), (proj2 (pad2_field _ Hmi2)) in Em.
  rewrite (proj2 (pad2_field _ Hs1)), (proj2 (pad2_field _ Hs2)) in Es.
  destruct (clock env1), (clock env2). cbn in *. congruence.
Qed.

Lemma datetime_label_injective_witness :
  clock (Sample.env false Sample.all_succeed)
  = clock (Sample.env true (Sample.missing "rsync")).
Proof.
  exact (datetime_label_injective (Sample.env false Sample.all_succeed)
           (Sample.env true (Sample.missing "rsync")) eq_refl eq_refl eq_refl).
Defined.

(** * The words of the promotion commands *)

Section PromotionWords.

Lemma label_no_space (env : Env) :
  valid_clock (clock env) = true -> has_space (_datetime env) = false.
Proof.
  intros Hvalid.
  destruct (valid_clock_fields _ Hvalid) as (Hy & Hmo & Hd & Hh & Hmi & Hs).
  unfold _datetime. cbv zeta. rewrite !has_space_app.
  rewrite (proj1 (digits_no_space _ _ (proj1 (pad4_field _ Hy)))),
    (proj1 (digits_no_space _ _ (proj1 (pad2_field _ Hmo)))),
    (proj1 (digits_no_space _ _ (proj1 (pad2_field _ Hd)))),
    (proj1 (digits_no_space _ _ (proj1 (pad2_field _ Hh)))),
    (proj1 (digits_no_space _ _ (proj1 (pad2_field _ Hmi)))),
    (proj1 (digits_no_space _ _ (proj1 (pad2_field _ Hs)))).
  reflexivity.
Qed.

Lemma app_not_empty (s t : string) : t <> "" -> s ++ t <> "".
Proof. destruct s; [trivial | discriminate]. Qed.

(** A word followed by a blank and more. *)
Lemma word_then (w x : string) :
  has_space w = false -> w <> "" ->
  Py.split_ws (w ++ String " " x) = w :: Py.split_ws x.
Proof. intros H1 H2. apply words_after. now apply split_ws_word. Qed.

End PromotionWords.

(** X17. With a clock [strftime] accepts and a destination whose path
    holds no whitespace, the promotion commands are launched with these
    words: [rm -f <root>/latest.snapshot]; [ln -s <label>.snapshot
    <root>/latest.snapshot]; for a local destination [mv
    <root>/incomplete.snapshot <root>/<label>.snapshot]; and for a remote one
    (with a [[user@]host] that is one word) the five words [ssh],
    [[user@]host], ["mv], [<root>/incomplete.snapshot] and
    [<root>/<label>.snapshot"], the two quote characters being part of the
    third and the fifth word. *)
Theorem promotion_words (env : Env) (C : Type) (source dest : string)
    (debug : bool) (compress : C) (exclude : option (list string))
    (user host : option string) (root : string) (c : commands) :
  valid_clock (clock env) = true ->
  _parse_rsync_arg (expanduser env) (abspath env) dest = Ok (user, host, root) ->
  has_space root = false ->
  build_commands env source dest debug compress exclude = Ok c ->
  Py.split_ws (the_rm_cmd c) = ["rm"; "-f"; root ++ "/latest.snapshot"] /\
  Py.split_ws (the_ln_cmd c)
  = ["ln"; "-s"; _datetime env ++ ".snapshot"; root ++ "/latest.snapshot"] /\
  match host with
  | None =>
      Py.split_ws (the_mv_cmd c)
      = ["mv"; root ++ "/incomplete.snapshot";
         root ++ "/" ++ _datetime env ++ ".snapshot"]
  | Some h =>
      has_space (ssh_login user h) = false -> ssh_login user h <> "" ->
      Py.split_ws (the_mv_cmd c)
      = ["ssh"; ssh_login user h; dquote ++ "mv"; root ++ "/incomplete.snapshot";
         root ++ "/" ++ _datetime env ++ ".snapshot" ++ dquote]
  end.
Proof.
  intros Hvalid Hparse Hroot Hbuild.
  pose proof (label_no_space env Hvalid) as Hlabel.
  destruct (build_commands_ok env source dest debug compress exclude)
    as (u & h & r & Hparse' & _ & Hbuild').
  rewrite Hparse in Hparse'. injection Hparse' as <- <- <-.
  rewrite Hbuild in Hbuild'. injection Hbuild' as ->.
  cbn [the_rm_cmd the_ln_cmd the_mv_cmd].
  assert (Hlatest : Py.split_ws (root ++ "/latest.snapshot")
                    = [root ++ "/latest.snapshot"]).
  { apply split_ws_word; [| apply app_not_empty; discriminate].
    now rewrite has_space_app, Hroot. }
  assert (Hinc : has_space (root ++ "/incomplete.snapshot") = false)
    by now rewrite has_space_app, Hroot.
  assert (Hinc' : root ++ "/incomplete.snapshot" <> "")
    by (apply app_not_empty; discriminate).
  split; [| split].
  - unfold rm_cmd.
    change ("rm -f " ++ ?x) with ("rm" ++ String " " ("-f" ++ String " " x)).
    rewrite !words_after by reflexivity. now rewrite Hlatest.
  - unfold ln_cmd.
    change ("ln -s " ++ ?x) with ("ln" ++ String " " ("-s" ++ String " " x)).
    rewrite !words_after by reflexivity.
    replace (_datetime env ++ ".snapshot " ++ root ++ "/latest.snapshot")
      with ((_datetime env ++ ".snapshot") ++ String " " (root ++ "/latest.snapshot"))
      by (now rewrite append_assoc).
    rewrite word_then, Hlatest; [reflexivity | | apply app_not_empty; discriminate].
    now rewrite has_space_app, Hlabel.
  - rewrite mv_cmd_shape. destruct host as [h|].
    + intros Hlogin Hlogin'.
      change ("ssh " ++ ?x) with ("ssh" ++ String " " x).
      rewrite words_after by reflexivity.
      change (ssh_login user h ++ " " ++ ?x) with (ssh_login user h ++ String " " x).
      rewrite (word_then _ _ Hlogin Hlogin').
      change (dquote ++ "mv " ++ ?x) with ((dquote ++ "mv") ++ String " " x).
      rewrite word_then; [| reflexivity | discriminate].
      replace (root ++ "/incomplete.snapshot " ++ root ++ "/" ++ _datetime env
               ++ ".snapshot" ++ dquote)
        with ((root ++ "/incomplete.snapshot") ++ String " "
              (root ++ "/" ++ _datetime env ++ ".snapshot" ++ dquote))
        by (now rewrite append_assoc).
      rewrite (word_then _ _ Hinc Hinc').
      rewrite split_ws_word; [reflexivity | | apply app_not_empty; discriminate].
      now rewrite !has_space_app, Hroot, Hlabel.
    + change ("mv " ++ ?x) with ("mv" ++ String " " x).
      rewrite words_after by reflexivity.
      replace (root ++ "/incomplete.snapshot " ++ root ++ "/" ++ _datetime env
               ++ ".snapshot")
        with ((root ++ "/incomplete.snapshot") ++ String " "
              (root ++ "/" ++ _datetime env ++ ".snapshot"))
        by (now rewrite append_assoc).
      rewrite (word_then _ _ Hinc Hinc').
      rewrite split_ws_word; [reflexivity | | apply app_not_empty; discriminate].
      now rewrite !has_space_app, Hroot, Hlabel.
Qed.

Lemma promotion_words_witness :
  exists c,
    build_commands (Sample.env false Sample.all_succeed)
      "/data" "seanh@mydomain.org:/backups" false true None = Ok c /\
    Py.split_ws (the_mv_cmd c)
    = ["ssh"; "seanh@mydomain.org"; dquote ++ "mv"; "/backups/incomplete.snapshot";
       "/backups/2026-11-03T09_05_00.snapshot" ++ dquote].
Proof.
  eexists. split; [reflexivity |].
  exact (proj2 (proj2 (promotion_words (Sample.env false Sample.all_succeed) bool
                         "/data" "seanh@mydomain.org:/backups" false true None
                         (Some "seanh") (Some "mydomain.org") "/backups" _
                         eq_refl eq_refl eq_refl eq_refl))
           eq_refl ltac:(discriminate)).
Defined.

(** * Promotion at a local destination *)

Section LocalPromotion.

Lemma label_no_slash (env : Env) :
  valid_clock (clock env) = true -> Py.contains "/" (_datetime env) = false.
Proof.
  intros Hvalid.
  destruct (valid_clock_fields _ Hvalid) as (Hy & Hmo & Hd & Hh & Hmi & Hs).
  unfold _datetime. cbv zeta. rewrite !contains_app.
  rewrite (proj2 (digits_no_space _ _ (proj1 (pad4_field _ Hy)))),
    (proj2 (digits_no_space _ _ (proj1 (pad2_field _ Hmo)))),
    (proj2 (digits_no_space _ _ (proj1 (pad2_field _ Hd)))),
    (proj2 (digits_no_space _ _ (proj1 (pad2_field _ Hh)))),
    (proj2 (digits_no_space _ _ (proj1 (pad2_field _ Hmi)))),
    (proj2 (digits_no_space _ _ (proj1 (pad2_field _ Hs)))).
  reflexivity.
Qed.

(** The words of the three promotion commands for a local root and a label
    that hold no whitespace. *)
Lemma local_promotion_words (user : option string) (root label : string) :
  has_space root = false -> has_space label = false ->
  Py.split_ws (mv_cmd user None root label)
  = ["mv"; root ++ "/incomplete.snapshot"; root ++ "/" ++ label ++ ".snapshot"] /\
  Py.split_ws (rm_cmd root) = ["rm"; "-f"; root ++ "/latest.snapshot"] /\
  Py.split_ws (ln_cmd root label)
  = ["ln"; "-s"; label ++ ".snapshot"; root ++ "/latest.snapshot"].
Proof.
  intros Hroot Hlabel.
  assert (Hlatest : Py.split_ws (root ++ "/latest.snapshot")
                    = [root ++ "/latest.snapshot"]).
  { apply split_ws_word; [| apply app_not_empty; discriminate].
    now rewrite has_space_app, Hroot. }
  assert (Hinc : has_space (root ++ "/incomplete.snapshot") = false)
    by now rewrite has_space_app, Hroot.
  assert (Hinc' : root ++ "/incomplete.snapshot" <> "")
    by (apply app_not_empty; discriminate).
  split; [| split].
  - rewrite mv_cmd_shape.
    change ("mv " ++ ?x) with ("mv" ++ String " " x).
    rewrite words_after by reflexivity.
    replace (root ++ "/incomplete.snapshot " ++ root ++ "/" ++ label ++ ".snapshot")
      with ((root ++ "/incomplete.snapshot") ++ String " "
            (root ++ "/" ++ label ++ ".snapshot"))
      by (now rewrite append_assoc).
    rewrite (word_then _ _ Hinc Hinc').
    rewrite split_ws_word; [reflexivity | | apply app_not_empty; discriminate].
    now rewrite !has_space_app, Hroot, Hlabel.
  - unfold rm_cmd.
    change ("rm -f " ++ ?x) with ("rm" ++ String " " ("-f" ++ String " " x)).
    rewrite !words_after by reflexivity. now rewrite Hlatest.
  - unfold ln_cmd.
    change ("ln -s " ++ ?x) with ("ln" ++ String " " ("-s" ++ String " " x)).
    rewrite !words_after by reflexivity.
    replace (label ++ ".snapshot " ++ root ++ "/latest.snapshot")
      with ((label ++ ".snapshot") ++ String " " (root ++ "/latest.snapshot"))
      by (now rewrite append_assoc).
    rewrite word_then, Hlatest; [reflexivity | | apply app_not_empty; discriminate].
    now rewrite has_space_app, Hlabel.
Qed.

End LocalPromotion.

(** C2, for a local destination.  With the trial flag off, a sync command
    that exited with status 0, a destination that is local with a path
    (root) free of whitespace, and a clock [strftime] accepts, the processes
    launched after the sync command are, in this order and each one only if
    the one before it exited with status 0: [mv <root>/incomplete.snapshot
    <root>/<label>.snapshot], [rm -f <root>/latest.snapshot] and [ln -s
    <label>.snapshot <root>/latest.snapshot].  So all three are launched
    exactly when the rename and the removal succeed.  The target of the link
    is the bare name [<label>.snapshot], with no slash in it. *)
Theorem promotion_sequence (env : Env) (C : Type) (source dest : string)
    (compress : C) (exclude : option (list string)) (tr : list event)
    (c : commands) (output : string) :
  valid_clock (clock env) = true ->
  _is_remote dest = false ->
  has_space (abspath env (expanduser env dest)) = false ->
  build_commands env source dest false compress exclude = Ok c ->
  fate env tr (the_rsync_cmd c) = Exited output 0 ->
  let root := abspath env (expanduser env dest) in
  let label := _datetime env in
  let mv := ["mv"; root ++ "/incomplete.snapshot";
             root ++ "/" ++ label ++ ".snapshot"] in
  let rm := ["rm"; "-f"; root ++ "/latest.snapshot"] in
  let ln := ["ln"; "-s"; label ++ ".snapshot"; root ++ "/latest.snapshot"] in
  let tr1 := after_run env tr (the_rsync_cmd c) in
  let tr2 := after_run env tr1 (the_mv_cmd c) in
  let tr3 := after_run env tr2 (the_rm_cmd c) in
  let tr4 := after_run env tr3 (the_ln_cmd c) in
  Py.split_ws (the_mv_cmd c) = mv /\
  Py.split_ws (the_rm_cmd c) = rm /\
  Py.split_ws (the_ln_cmd c) = ln /\
  Py.contains "/" (label ++ ".snapshot") = false /\
  snapshot env source dest false compress exclude tr
  = (if negb (succeeded (fate env tr1 (the_mv_cmd c)))
     then (tr2, Raise (run_failure (the_mv_cmd c) (fate env tr1 (the_mv_cmd c))))
     else if negb (succeeded (fate env tr2 (the_rm_cmd c)))
     then (tr3, Raise (run_failure (the_rm_cmd c) (fate env tr2 (the_rm_cmd c))))
     else if negb (succeeded (fate env tr3 (the_ln_cmd c)))
     then (tr4, Raise (run_failure (the_ln_cmd c) (fate env tr3 (the_ln_cmd c))))
     else (tr4, Ok tt)) /\
  launched (fst (snapshot env source dest false compress exclude tr))
  = (launched tr
     ++ Py.split_ws (the_rsync_cmd c)
        :: (if negb (succeeded (fate env tr1 (the_mv_cmd c))) then [mv]
            else if negb (succeeded (fate env tr2 (the_rm_cmd c))) then [mv; rm]
            else [mv; rm; ln]))%list.
Proof.
  intros Hvalid Hlocal Hroot Hbuild Hfate root label mv rm ln tr1 tr2 tr3 tr4.
  pose proof (label_no_space env Hvalid) as Hlabel.
  destruct (built_runnable env _ _ _ _ _ _ Hbuild) as (H1 & H2 & H3 & H4).
  assert (Hc : c = {| the_rsync_cmd :=
                        rsync_cmd (rsync_options env false exclude)
                          (with_trailing_sep source) None None root;
                      the_mv_cmd := mv_cmd None None root label;
                      the_rm_cmd := rm_cmd root;
                      the_ln_cmd := ln_cmd root label |}).
  { destruct (build_commands_ok env source dest false compress exclude)
      as (u & h & r & Hparse & _ & Hbuild').
    unfold _parse_rsync_arg in Hparse. rewrite Hlocal in Hparse.
    injection Hparse as <- <- <-.
    rewrite Hbuild in Hbuild'. now injection Hbuild'. }
  destruct (local_promotion_words None root label Hroot Hlabel)
    as (Wmv & Wrm & Wln).
  assert (Emv : Py.split_ws (the_mv_cmd c) = mv) by (rewrite Hc; exact Wmv).
  assert (Erm : Py.split_ws (the_rm_cmd c) = rm) by (rewrite Hc; exact Wrm).
  assert (Eln : Py.split_ws (the_ln_cmd c) = ln) by (rewrite Hc; exact Wln).
  assert (Hrun :
    snapshot env source dest false compress exclude tr
    = (if negb (succeeded (fate env tr1 (the_mv_cmd c)))
       then (tr2, Raise (run_failure (the_mv_cmd c) (fate env tr1 (the_mv_cmd c))))
       else if negb (succeeded (fate env tr2 (the_rm_cmd c)))
       then (tr3, Raise (run_failure (the_rm_cmd c) (fate env tr2 (the_rm_cmd c))))
       else if negb (succeeded (fate env tr3 (the_ln_cmd c)))
       then (tr4, Raise (run_failure (the_ln_cmd c) (fate env tr3 (the_ln_cmd c))))
       else (tr4, Ok tt))).
  { rewrite (snapshot_built env _ _ _ _ _ _ tr Hbuild).
    rewrite (run_commands_real env c tr H1 H2 H3 H4).
    rewrite Hfate. reflexivity. }
  split; [exact Emv |]. split; [exact Erm |]. split; [exact Eln |].
  split; [| split; [exact Hrun |]].
  - unfold label. rewrite contains_app, (label_no_slash env Hvalid). reflexivity.
  - rewrite Hrun.
    assert (L1 : launched tr1 = (launched tr ++ [Py.split_ws (the_rsync_cmd c)])%list).
    { unfold tr1, after_run. rewrite launched_app. reflexivity. }
    assert (L2 : launched tr2 = (launched tr1 ++ [mv])%list).
    { unfold tr2, after_run. rewrite launched_app. cbn [launched]. now rewrite Emv. }
    assert (L3 : launched tr3 = (launched tr2 ++ [rm])%list).
    { unfold tr3, after_run. rewrite launched_app. cbn [launched]. now rewrite Erm. }
    assert (L4 : launched tr4 = (launched tr3 ++ [ln])%list).
    { unfold tr4, after_run. rewrite launched_app. cbn [launched]. now rewrite Eln. }
    destruct (succeeded (fate env tr1 (the_mv_cmd c))); cbn [negb fst].
    + destruct (succeeded (fate env tr2 (the_rm_cmd c))); cbn [negb fst].
      * assert (Hfst : forall (b : bool) (x y : result unit),
                   fst (if b then (tr4, x) else (tr4, y)) = tr4)
          by (intros []; reflexivity).
        rewrite Hfst, L4, L3, L2, L1, <- !app_assoc. reflexivity.
      * rewrite L3, L2, L1, <- !app_assoc. reflexivity.
    + rewrite L2, L1, <- !app_assoc. reflexivity.
Qed.

Lemma promotion_sequence_witness :
  launched (fst (snapshot (Sample.env false Sample.all_succeed)
                   "/data" "~/backup" false true None []))
  = [ ["rsync"; "--archive"; "--partial";
       "--partial-dir=partially_transferred_files"; "--one-file-system";
       "--delete"; "--delete-excluded"; "--itemize-changes";
       "--link-dest=../latest.snapshot"; "--human-readable"; "--quiet";
       "--compress"; "--fuzzy"; "/data/";
       "/home/alice/backup/incomplete.snapshot"];
      ["mv"; "/home/alice/backup/incomplete.snapshot";
       "/home/alice/backup/2026-11-03T09_05_00.snapshot"];
      ["rm"; "-f"; "/home/alice/backup/latest.snapshot"];
      ["ln"; "-s"; "2026-11-03T09_05_00.snapshot";
       "/home/alice/backup/latest.snapshot"] ].
Proof.
  exact (proj2 (proj2 (proj2 (proj2 (proj2
           (promotion_sequence (Sample.env false Sample.all_succeed) bool
              "/data" "~/backup" true None [] _ ""
              eq_refl eq_refl eq_refl eq_refl eq_refl)))))).
Defined.

(** * Arguments with no NUL byte *)

Section NulFacts.

(** A word of a string holds only characters of the string. *)
Lemma split_ws_contains (c : ascii) (s : string) :
  forall w, In w (Py.split_ws s) -> Py.contains c w = true -> Py.contains c s = true.
Proof.
  induction s as [|a s IH]; intros w Hin Hc; [contradiction |].
  cbn [Py.split_ws] in Hin. cbn [Py.contains].
  destruct (Ascii.eqb a c) eqn:E; [reflexivity |].
  destruct (Py.isspace a).
  - exact (IH w Hin Hc).
  - destruct s as [|b s].
    + destruct Hin as [<- | []]. cbn [Py.contains] in Hc. now rewrite E in Hc.
    + destruct (Py.isspace b).
      * destruct Hin as [<- | Hin]; [| exact (IH w Hin Hc)].
        cbn [Py.contains] in Hc. now rewrite E in Hc.
      * fold Py.split_ws in Hin.
        destruct (Py.split_ws (String b s)) as [|h t] eqn:W.
        -- destruct Hin as [<- | []]. cbn [Py.contains] in Hc. now rewrite E in Hc.
        -- destruct Hin as [<- | Hin].
           ++ cbn [Py.contains] in Hc. rewrite E in Hc.
              apply (IH h); [now left | exact Hc].
           ++ apply (IH w); [now right | exact Hc].
Qed.

Lemma contains_join (c : ascii) (sep : string) (l : list string) :
  Py.contains c sep = false ->
  (forall o, In o l -> Py.contains c o = false) ->
  Py.contains c (Py.join sep l) = false.
Proof.
  intros Hsep. unfold Py.join. induction l as [|x l IH]; intros Hl; [reflexivity |].
  destruct l as [|y l]; [apply Hl; now left |].
  change (String.concat sep (x :: y :: l))
    with (x ++ sep ++ String.concat sep (y :: l)).
  rewrite !contains_app, Hsep, (Hl x (or_introl eq_refl)), IH; [reflexivity |].
  intros o Ho. apply Hl. now right.
Qed.

Lemma digits_without (c : ascii) (n : nat) (s : string) :
  isdigit c = false -> digits n s = true -> Py.contains c s = false.
Proof.
  intros Hc. revert s. induction n as [|n IH]; intros [|a s] H; try discriminate;
    [reflexivity |].
  cbn [digits] in H. apply Bool.andb_true_iff in H. destruct H as (Ha & Hs).
  cbn [Py.contains]. destruct (Ascii.eqb_spec a c) as [-> |]; [congruence |].
  exact (IH s Hs).
Qed.

Lemma label_nul_free (env : Env) :
  valid_clock (clock env) = true -> Py.contains Ascii.zero (_datetime env) = false.
Proof.
  intros Hvalid.
  destruct (valid_clock_fields _ Hvalid) as (Hy & Hmo & Hd & Hh & Hmi & Hs).
  unfold _datetime. cbv zeta. rewrite !contains_app.
  rewrite (digits_without Ascii.zero _ _ eq_refl (proj1 (pad4_field _ Hy))),
    (digits_without Ascii.zero _ _ eq_refl (proj1 (pad2_field _ Hmo))),
    (digits_without Ascii.zero _ _ eq_refl (proj1 (pad2_field _ Hd))),
    (digits_without Ascii.zero _ _ eq_refl (proj1 (pad2_field _ Hh))),
    (digits_without Ascii.zero _ _ eq_refl (proj1 (pad2_field _ Hmi))),
    (digits_without Ascii.zero _ _ eq_refl (proj1 (pad2_field _ Hs))).
  reflexivity.
Qed.

(** The parts the parser returns hold only characters of the argument, or
    of the expanded local path. *)
Lemma parse_parts_without (c : ascii) (expanduser abspath : string -> string)
    (arg : string) (user host : option string) (path : string) :
  _parse_rsync_arg expanduser abspath arg = Ok (user, host, path) ->
  Py.contains c arg = false -> Py.contains c (abspath (expanduser arg)) = false ->
  Py.contains c path = false /\
  (forall u, user = Some u -> Py.contains c u = false) /\
  (forall h, host = Some h -> Py.contains c h = false).
Proof.
  intros Hparse Harg Hlocal. unfold _parse_rsync_arg in Hparse.
  destruct (_is_remote arg) eqn:R.
  - destruct (remote_cut arg R) as (head & tail & Hcut & _ & Hsplit).
    rewrite Hsplit in Hparse. injection Hparse as <- <- <-.
    rewrite Hcut, !contains_app in Harg.
    apply Bool.orb_false_iff in Harg. destruct Harg as (Hhead & Harg).
    apply Bool.orb_false_iff in Harg. destruct Harg as (_ & Htail).
    split; [exact Htail |]. split.
    + intros u Hu. destruct (Py.contains "@" head) eqn:A; [| discriminate].
      injection Hu as <-.
      destruct (first_split "@" head) as (_ & _ & Hyes).
      destruct (Hyes A) as (rest & Hrest). rewrite Hrest, contains_app in Hhead.
      now apply Bool.orb_false_iff in Hhead.
    + intros h Hh. injection Hh as <-.
      destruct (last_split "@" head) as (_ & Hno & Hyes).
      destruct (Py.contains "@" head) eqn:A.
      * destruct (Hyes eq_refl) as (rest & Hrest).
        rewrite Hrest, contains_app in Hhead.
        apply Bool.orb_false_iff in Hhead. destruct Hhead as (_ & Hhead).
        cbn [Py.contains] in Hhead.
        destruct (Ascii.eqb "@" c); [discriminate | exact Hhead].
      * now rewrite (Hno eq_refl).
  - injection Hparse as <- <- <-.
    split; [exact Hlocal |]. split; discriminate.
Qed.

Lemma options_nul_free (env : Env) (debug : bool) (exclude : option (list string)) :
  (forall patterns pattern,
     exclude = Some patterns -> In pattern patterns -> nul_free pattern = true) ->
  forall o, In o (rsync_options env debug exclude) ->
            Py.contains Ascii.zero o = false.
Proof.
  intros Hpat o Hin. unfold rsync_options in Hin.
  apply in_app_or in Hin. destruct Hin as [Hin | Hin].
  { unfold fixed_options in Hin. simpl in Hin.
    repeat (destruct Hin as [<- | Hin]; [reflexivity |]). contradiction. }
  apply in_app_or in Hin. destruct Hin as [Hin | Hin].
  { destruct (isfile env (expanduser env "~/.snapshotter/excludes"));
      [| contradiction]. destruct Hin as [<- | []]. reflexivity. }
  apply in_app_or in Hin. destruct Hin as [Hin | Hin].
  { destruct debug; [| contradiction]. destruct Hin as [<- | []]. reflexivity. }
  destruct exclude as [patterns|]; [| contradiction].
  apply in_map_iff in Hin. destruct Hin as (pattern & <- & Hin).
  pose proof (Hpat patterns pattern eq_refl Hin) as Hp.
  unfold nul_free in Hp. apply Bool.negb_true_iff in Hp.
  rewrite !contains_app, Hp. reflexivity.
Qed.

(** With a source, a destination and patterns free of NUL bytes, so are the
    four commands [snapshot] builds. *)
Lemma built_nul_free (env : Env) {C : Type} (source dest : string) (debug : bool)
    (compress : C) (exclude : option (list string)) (c : commands) :
  valid_clock (clock env) = true ->
  nul_free source = true -> nul_free dest = true ->
  nul_free (abspath env (expanduser env dest)) = true ->
  (forall patterns pattern,
     exclude = Some patterns -> In pattern patterns -> nul_free pattern = true) ->
  build_commands env source dest debug compress exclude = Ok c ->
  Py.contains Ascii.zero (the_rsync_cmd c) = false /\
  Py.contains Ascii.zero (the_mv_cmd c) = false /\
  Py.contains Ascii.zero (the_rm_cmd c) = false /\
  Py.contains Ascii.zero (the_ln_cmd c) = false.
Proof.
  unfold nul_free. intros Hvalid Hsource Hdest Hlocal Hpat Hbuild.
  apply Bool.negb_true_iff in Hsource, Hdest, Hlocal.
  pose proof (label_nul_free env Hvalid) as Hlabel.
  destruct (build_commands_ok env source dest debug compress exclude)
    as (user & host & root & Hparse & _ & Hbuild').
  rewrite Hbuild in Hbuild'. injection Hbuild' as ->.
  destruct (parse_parts_without Ascii.zero _ _ _ _ _ _ Hparse Hdest Hlocal)
    as (Hroot & Huser & Hhost).
  cbn [the_rsync_cmd the_mv_cmd the_rm_cmd the_ln_cmd].
  assert (Hsrc : Py.contains Ascii.zero (with_trailing_sep source) = false).
  { unfold with_trailing_sep. destruct (Py.endswith source os_sep);
      [exact Hsource |]. now rewrite contains_app, Hsource. }
  assert (Hjoin : Py.contains Ascii.zero
                    (Py.join " " (rsync_options env debug exclude)) = false).
  { apply contains_join; [reflexivity |]. now apply options_nul_free. }
  assert (Hprefix : Py.contains Ascii.zero (remote_prefix user host) = false).
  { unfold remote_prefix. destruct host as [h|]; [| reflexivity].
    destruct user as [u|]; rewrite !contains_app, ?(Huser u eq_refl),
      (Hhost h eq_refl); reflexivity. }
  repeat split.
  - rewrite rsync_cmd_shape, !contains_app, Hjoin, Hsrc, Hprefix, Hroot.
    reflexivity.
  - rewrite mv_cmd_shape. destruct host as [h|].
    + assert (Hlogin : Py.contains Ascii.zero (ssh_login user h) = false).
      { unfold ssh_login. destruct user as [u|];
          rewrite ?contains_app, ?(Huser u eq_refl), (Hhost h eq_refl); reflexivity. }
      rewrite !contains_app, Hlogin, Hroot, Hlabel. reflexivity.
    + rewrite !contains_app, Hroot, Hlabel. reflexivity.
  - unfold rm_cmd. rewrite !contains_app, Hroot. reflexivity.
  - unfold ln_cmd. rewrite !contains_app, Hroot, Hlabel. reflexivity.
Qed.

End NulFacts.

(** X11. For a clock [strftime] accepts and a source, a destination and
    patterns with no NUL byte in them (the expanded local path included), no
    word of any process [snapshot] launches holds a NUL byte, and [snapshot]
    either returns or raises the failure of one of its commands:
    [CalledProcessError] with a non-zero exit status, [NoSuchCommandError], or
    an [OSError] whose errno is not 2.  It never raises [ValueError] from
    unpacking the split destination and never [IndexError] from a command
    with no word. *)
Theorem snapshot_raises_only (env : Env) (C : Type) (source dest : string)
    (debug : bool) (compress : C) (exclude : option (list string))
    (tr : list event) :
  valid_clock (clock env) = true ->
  nul_free source = true -> nul_free dest = true ->
  nul_free (abspath env (expanduser env dest)) = true ->
  (forall patterns pattern,
     exclude = Some patterns -> In pattern patterns -> nul_free pattern = true) ->
  (exists new,
     launched (fst (snapshot env source dest debug compress exclude tr))
     = (launched tr ++ new)%list /\
     forall argv word, In argv new -> In word argv -> nul_free word = true) /\
  match snd (snapshot env source dest debug compress exclude tr) with
  | Ok _ => True
  | Raise (CalledProcessError _ _ code) => code <> 0
  | Raise (NoSuchCommandError _ _) => True
  | Raise (OSError errno _) => errno <> 2
  | Raise _ => False
  end.
Proof.
  intros Hvalid Hsource Hdest Hlocal Hpat. split.
  - destruct (build_commands_ok env source dest debug compress exclude)
      as (user & host & root & _ & _ & Hbuild).
    match type of Hbuild with _ = Ok ?r => set (c := r) in * end.
    destruct (built_nul_free env _ _ _ _ _ c Hvalid Hsource Hdest Hlocal Hpat Hbuild)
      as (N1 & N2 & N3 & N4).
    destruct (built_runnable env _ _ _ _ _ _ Hbuild) as (H1 & H2 & H3 & H4).
    assert (Hwords : forall argv word,
              In argv [Py.split_ws (the_rsync_cmd c); Py.split_ws (the_mv_cmd c);
                       Py.split_ws (the_rm_cmd c); Py.split_ws (the_ln_cmd c)] ->
              In word argv -> nul_free word = true).
    { intros argv word Hargv Hword. unfold nul_free. apply Bool.negb_true_iff.
      destruct (Py.contains Ascii.zero word) eqn:E; [| reflexivity].
      destruct Hargv as [<- | [<- | [<- | [<- | []]]]];
        pose proof (split_ws_contains Ascii.zero _ word Hword E); congruence. }
    assert (L : forall tr0 command,
              launched (after_run env tr0 command)
              = (launched tr0 ++ [Py.split_ws command])%list).
    { intros tr0 command. unfold after_run. now rewrite launched_app. }
    rewrite (snapshot_built env _ _ _ _ _ _ tr Hbuild). destruct debug.
    + rewrite (run_commands_trial env c tr H1). cbn [fst].
      exists [Py.split_ws (the_rsync_cmd c)]. split; [apply L |].
      intros argv word Hargv. apply Hwords. destruct Hargv as [<- | []]. now left.
    + rewrite (run_commands_real env c tr H1 H2 H3 H4).
      repeat match goal with
             | |- context [if negb ?b then _ else _] => destruct b; cbn [negb fst]
             end;
        rewrite ?L, <- ?app_assoc; cbn [app];
        eexists; (split; [reflexivity |]);
        intros argv word Hargv; apply Hwords; cbn [In] in *; tauto.
  - destruct (snd (snapshot env source dest debug compress exclude tr))
      as [[] | e] eqn:R; [exact I |].
    destruct (snapshot_raises env _ _ _ _ _ _ _ R) as (command & o & Hfail & ->).
    pose proof (run_failure_kinds command o Hfail) as K.
    destruct (run_failure command o); try exact K; try exact I. exact (proj2 K).
Qed.

Lemma snapshot_raises_only_witness :
  nul_free "/data" = true /\ nul_free "~/backup" = true /\
  nul_free "*.tmp" = true /\
  match snd (snapshot (Sample.env true (Sample.fails "rsync" "rsync error" 23))
               "/data" "~/backup" false true (Some ["*.tmp"]) []) with
  | Ok _ => True
  | Raise (CalledProcessError _ _ code) => code <> 0
  | Raise (NoSuchCommandError _ _) => True
  | Raise (OSError errno _) => errno <> 2
  | Raise _ => False
  end.
Proof.
  split; [reflexivity |]. split; [reflexivity |]. split; [reflexivity |].
  refine (proj2 (snapshot_raises_only
                   (Sample.env true (Sample.fails "rsync" "rsync error" 23)) bool
                   "/data" "~/backup" false true (Some ["*.tmp"]) []
                   eq_refl eq_refl eq_refl eq_refl _)).
  intros patterns pattern E Hin. injection E as <-.
  destruct Hin as [<- | []]. reflexivity.
Defined.

(** * Asking for help *)

(** X18. A command line that starts with [-h] or [--help] makes [main]
    write the help text on stdout and exit with status 0, whatever follows
    on the command line; nothing is launched. *)
Theorem main_help (env : Env) (flag : string) (rest : list string)
    (tr : list event) :
  flag = "-h" \/ flag = "--help" ->
  main env (flag :: rest) tr
  = ((tr ++ [Echo (help_text env)])%list, Raise (SystemExit (ExitStatus 0))) /\
  launched (fst (main env (flag :: rest) tr)) = launched tr.
Proof.
  intros Hflag.
  assert (Hmain : main env (flag :: rest) tr
                  = ((tr ++ [Echo (help_text env)])%list,
                     Raise (SystemExit (ExitStatus 0))))
    by (destruct Hflag as [-> | ->]; reflexivity).
  split; [exact Hmain |]. rewrite Hmain. cbn [fst].
  rewrite launched_app. cbn. now rewrite app_nil_r.
Qed.

Lemma main_help_witness :
  launched (fst (main (Sample.env false Sample.all_succeed)
                   ["--help"; "/data"; "/backup"] [])) = [] /\
  snd (main (Sample.env false Sample.all_succeed) ["--help"; "/data"; "/backup"] [])
  = Raise (SystemExit (ExitStatus 0)).
Proof.
  split.
  - exact (proj2 (main_help (Sample.env false Sample.all_succeed) "--help"
                    ["/data"; "/backup"] [] (or_intror eq_refl))).
  - exact (f_equal snd
             (proj1 (main_help (Sample.env false Sample.all_succeed) "--help"
                       ["/data"; "/backup"] [] (or_intror eq_refl)))).
Defined.
